(** * cca_zoo.deep.Wrapper: a shallow embedding of the training and
    evaluation orchestration of [src/cca_zoo/deep.py].

    Python integers are [Z], array sizes and indices are [nat], NumPy
    2-D arrays are row lists over an abstract scalar type (no algebraic
    law of floating point is assumed), Python exceptions are values of
    an error monad, and the caller's arrays that the wrapper mutates in
    place live in an explicit store. The neural network, scikit-learn's
    CCA and NumPy's correlation routine are collaborators behind an
    interface, as they are in the source. *)

From Stdlib Require Import ZArith QArith Lia Permutation.
From stdpp Require Import gmap strings list.

Local Open Scope string_scope.
Local Open Scope list_scope.
Local Open Scope Z_scope.

(** ** Python exceptions and the error monad *)

Module Py.

Inductive exn : Type :=
| AttributeError (attr : string)
| UnboundLocalError (var : string)
| IndexError
| ValueError
| TypeError
| ZeroDivisionError
| AssertionError.

(** What running a piece of code gives within a step budget: a value,
    an exception, or no answer yet. Only the [while] loop of
    [process_training_data] consumes the budget. *)
Inductive result (A : Type) : Type :=
| Ok (a : A)
| Raise (e : exn)
| OutOfFuel.
Arguments Ok {A} a.
Arguments Raise {A} e.
Arguments OutOfFuel {A}.

Definition bind {A B} (r : result A) (k : A -> result B) : result B :=
  match r with
  | Ok a => k a
  | Raise e => Raise e
  | OutOfFuel => OutOfFuel
  end.

(** Reading an attribute of [self] that may not have been assigned. *)
Definition getattr {A} (name : string) (field : option A) : result A :=
  match field with
  | Some a => Ok a
  | None => Raise (AttributeError name)
  end.

(** [for x in l: body], threading an accumulator and stopping at the
    first exception. *)
Fixpoint for_each {A S} (body : S -> A -> result S) (l : list A) (s : S)
  : result S :=
  match l with
  | [] => Ok s
  | x :: l' => bind (body s x) (for_each body l')
  end.

(** A list comprehension whose element expression can raise. *)
Fixpoint comprehension {A B} (f : A -> result B) (l : list A)
  : result (list B) :=
  match l with
  | [] => Ok []
  | x :: l' =>
      bind (f x) (fun y => bind (comprehension f l') (fun ys => Ok (y :: ys)))
  end.

End Py.

Import Py.

Notation "'let*' x ':=' c1 'in' c2" := (Py.bind c1 (fun x => c2))
  (at level 10, x name, c1 at level 100, c2 at level 200).
Notation "'let*' ' p ':=' c1 'in' c2" := (Py.bind c1 (fun p => c2))
  (at level 10, p strict pattern, c1 at level 100, c2 at level 200).

(** ** Scalars

    The array element type with the arithmetic the wrapper performs on
    it. The class carries operations only: every theorem below holds
    for IEEE doubles as well as for exact rationals. *)

Class Scalar (R : Type) : Type := {
  s_zero : R;
  s_add : R -> R -> R;
  s_sub : R -> R -> R;
  s_mul : R -> R -> R;
  s_div : R -> R -> R;
  s_sqrt : R -> R;
  s_of_Z : Z -> R;
  s_ltb : R -> R -> bool
}.

(** ** NumPy arrays *)

Section NDArray.
Context {R : Type} `{Scalar R}.

(** A 2-D array of shape [(length rows, ncols)]. *)
Record ndarray : Type := mk_ndarray {
  ncols : nat;
  rows : list (list R)
}.

Definition shape0 (X : ndarray) : nat := length (rows X).

(** [X[inds]]: fancy indexing of rows; an index past the end raises. *)
Definition take_rows (X : ndarray) (inds : list nat) : result ndarray :=
  let* rs := comprehension
                (fun i => match rows X !! i with
                          | Some r => Ok r
                          | None => Raise IndexError
                          end) inds in
  Ok (mk_ndarray (ncols X) rs).

Definition sum_axis0 (X : ndarray) : list R :=
  fold_left (zip_with s_add) (rows X) (repeat s_zero (ncols X)).

(** [X.mean(axis=0)]: the per-column sums divided by the row count. *)
Definition mean_axis0 (X : ndarray) : list R :=
  map (fun s => s_div s (s_of_Z (Z.of_nat (shape0 X)))) (sum_axis0 X).

(** Every row minus the vector [m], entry by entry. *)
Definition sub_rows (X : ndarray) (m : list R) : ndarray :=
  mk_ndarray (ncols X) (map (fun r => zip_with s_sub r m) (rows X)).

(** [X - m] for a 1-D [m], with NumPy's broadcasting of the last axis:
    the lengths agree, or one of them is 1. *)
Definition np_sub (X : ndarray) (m : list R) : result ndarray :=
  if Nat.eqb (length m) (ncols X) then Ok (sub_rows X m)
  else match m with
       | [c] => Ok (mk_ndarray (ncols X)
                      (map (map (fun x => s_sub x c)) (rows X)))
       | _ =>
           if Nat.eqb (ncols X) 1 then
             Ok (mk_ndarray (length m)
                   (map (fun r => match r with
                                  | x :: _ => map (s_sub x) m
                                  | [] => []
                                  end) (rows X)))
           else Raise ValueError
       end.

(** [X -= m]: the same subtraction written into [X] itself, so the
    result must have the shape of [X]. *)
Definition np_isub (X : ndarray) (m : list R) : result ndarray :=
  if Nat.eqb (length m) (ncols X) then Ok (sub_rows X m)
  else match m with
       | [c] => Ok (mk_ndarray (ncols X)
                      (map (map (fun x => s_sub x c)) (rows X)))
       | _ => Raise ValueError
       end.

(** [np.append(A, B, axis=0)]. *)
Definition np_append0 (A B : ndarray) : result ndarray :=
  if Nat.eqb (ncols A) (ncols B)
  then Ok (mk_ndarray (ncols A) (rows A ++ rows B))
  else Raise ValueError.

(** [np.linalg.norm(U, axis=0, keepdims=True)]: one Euclidean norm per
    column, taken down the rows. *)
Definition norm_axis0 (U : ndarray) : list R :=
  map s_sqrt
    (fold_left (zip_with s_add)
       (map (map (fun x => s_mul x x)) (rows U))
       (repeat s_zero (ncols U))).

(** [U / np.linalg.norm(U, axis=0, keepdims=True)], on array values.
    Tensors and arrays are one type here, so the function is total. In
    the source [U] is the encoder's tensor, and NumPy's conversion of a
    tensor that requires grad raises [RuntimeError]; that raise is not
    represented. The properties below therefore never state that a
    call which reaches this division returns: they speak of the
    caller's store, of the exceptions raised before the division, and
    of the result where the call returns. *)
Definition normalize_columns (U : ndarray) : ndarray :=
  mk_ndarray (ncols U)
    (map (fun r => zip_with s_div r (norm_axis0 U)) (rows U)).

(** An array as NumPy holds it: every row has [ncols] entries. *)
Definition rectangular (X : ndarray) : Prop :=
  Forall (fun r => length r = ncols X) (rows X).

End NDArray.
Arguments ndarray R : clear implicits.

(** ** Collaborators

    The network classes of [cca_zoo.DCCAE] and [cca_zoo.DVCCA],
    scikit-learn's [CCA], and the two numeric library calls the wrapper
    leaves to NumPy and torch. Tensors and arrays are identified. Of
    the network's methods only [update_weights] and [load_state_dict]
    change the network; a forward pass, a loss, an encoding or a
    decoding reads it. *)

(** The arguments of [Wrapper.__init__] that no method assigns again. *)
Record Config (R : Type) : Type := mk_Config {
  latent_dims : Z;
  learning_rate : R;
  epoch_num : Z;
  method : string;
  loss_type : string;
  lam : R;
  private : bool;
  patience : Z;
  both_encoders : bool;
  hidden_layer_sizes_1 : option (list Z);
  hidden_layer_sizes_2 : option (list Z);
  model_1 : string;
  model_2 : string
}.
Arguments mk_Config {R}.
Arguments latent_dims {R}.
Arguments learning_rate {R}.
Arguments epoch_num {R}.
Arguments method {R}.
Arguments loss_type {R}.
Arguments lam {R}.
Arguments private {R}.
Arguments patience {R}.
Arguments both_encoders {R}.
Arguments hidden_layer_sizes_1 {R}.
Arguments hidden_layer_sizes_2 {R}.
Arguments model_1 {R}.
Arguments model_2 {R}.

Class ModelAdapter (R Model Snapshot : Type) : Type := {
  (** [cca_zoo.DCCAE.DCCAE(input_size_1=.., input_size_2=.., ..)] *)
  new_DCCAE : Config R -> nat -> nat -> result Model;
  (** [cca_zoo.DVCCA.DVCCA(input_size_1=.., input_size_2=.., ..)] *)
  new_DVCCA : Config R -> nat -> nat -> result Model;
  (** [cca_zoo.DCCA.DGCCA()] *)
  new_DGCCA : result Model;
  (** [copy.deepcopy(model.state_dict())] *)
  state_dict : Model -> Snapshot;
  (** [model.load_state_dict(snapshot)] *)
  load_state_dict : Model -> Snapshot -> Model;
  (** [model.double().to(device)] *)
  double_to_device : Model -> Model;
  (** [model.train()] and [model.eval()] *)
  train_mode : Model -> Model;
  eval_mode : Model -> Model;
  (** [model.update_weights(x, y)], then [.item()] of the loss *)
  update_weights : Model -> ndarray R -> ndarray R -> result (Model * R);
  (** [model(x, y)]: the tuple of outputs *)
  forward : Model -> ndarray R -> ndarray R -> result (list (ndarray R));
  (** [model.loss(x, y, *outputs)], then [.item()] *)
  loss : Model -> ndarray R -> ndarray R -> list (ndarray R) -> result R;
  (** [model.encode_k(t)] of a DCCAE model *)
  encode_1 : Model -> ndarray R -> result (ndarray R);
  encode_2 : Model -> ndarray R -> result (ndarray R);
  (** [model.encode_k(t)[0]] of a DVCCA model *)
  encode_1_mu : Model -> ndarray R -> result (ndarray R);
  encode_2_mu : Model -> ndarray R -> result (ndarray R);
  (** [model.decode_k(z)] *)
  decode_1 : Model -> ndarray R -> result (ndarray R);
  decode_2 : Model -> ndarray R -> result (ndarray R)
}.

Class Numerics (R CCA : Type) : Type := {
  (** [CCA(n_components=k)] followed by [.fit_transform(z_x, z_y)] *)
  cca_fit_transform :
    Z -> ndarray R -> ndarray R -> result (CCA * (ndarray R * ndarray R));
  (** [cca.transform(z_x, z_y)] *)
  cca_transform :
    CCA -> ndarray R -> ndarray R -> result (ndarray R * ndarray R);
  (** [np.diag(np.corrcoef(v1, v2, rowvar=False)[:k, k:])] *)
  corrcoef_diag : Z -> ndarray R -> ndarray R -> result (list R);
  (** [F.mse_loss(recon, x, reduction='sum')] as a number *)
  mse_loss_sum : ndarray R -> ndarray R -> result R
}.

(** ** The wrapper *)

(** [int(round(n / d, 0))] for [d > 0]: to the nearest integer, a tie to
    the even one. *)
Definition py_round_ratio (n d : Z) : Z :=
  let q := n / d in
  let r := n mod d in
  if 2 * r <? d then q
  else if d <? 2 * r then q + 1
  else if Z.even q then q else q + 1.

(** [int(round(0.8 * num_subjects, 0))]. The product is taken as the
    exact fraction [8 * S / 10]: its distance to the nearest tie is at
    least 1/10, far above the rounding error of the double product. *)
Definition split_point (num_subjects : nat) : nat :=
  Z.to_nat (py_round_ratio (8 * Z.of_nat num_subjects) 10).

(** Lines 61-63: [arange], [np.random.shuffle] (the permutation drawn is
    the argument [shuffle]) and [np.split] at the split point. *)
Definition partition (shuffle : list nat -> list nat) (num_subjects : nat)
  : list nat * list nat :=
  let all_inds := shuffle (seq 0 num_subjects) in
  (take (split_point num_subjects) all_inds,
   drop (split_point num_subjects) all_inds).

(** Lines 74-75:
    [while num_subjects % self.batch_size < self.latent_dims:
         self.batch_size += 1].
    Python's [%] takes the sign of the divisor, as [Z.modulo] does, and
    raises on a zero divisor. *)
Fixpoint adjust_batch_size (fuel : nat) (num_subjects batch_size latent : Z)
  : result Z :=
  match fuel with
  | O => OutOfFuel
  | S fuel' =>
      if batch_size =? 0 then Raise ZeroDivisionError
      else if num_subjects mod batch_size <? latent
           then adjust_batch_size fuel' num_subjects (batch_size + 1) latent
           else Ok batch_size
  end.

Section Wrapper.
Context {R Model Snapshot CCA : Type}.
Context `{Scalar R} `{ModelAdapter R Model Snapshot} `{Numerics R CCA}.

Local Abbreviation array := (ndarray R).

(** The attributes of a [Wrapper] object. Those that [__init__] does not
    assign are optional: reading one before it is assigned raises
    [AttributeError]. *)
Record Wrapper : Type := mk_Wrapper {
  cfg : Config R;
  batch_size : Z;
  dataset_list_train : option (list array);
  dataset_list_val : option (list array);
  dataset_means : option (list (list R));
  model : option Model;
  cca : option CCA;
  train_correlations : option (option (list R));
  X_mean : option (list R);
  Y_mean : option (list R)
}.

(** [Wrapper.__init__]. *)
Definition init (c : Config R) (batch : Z) : Wrapper :=
  mk_Wrapper c batch None None None None None None None None.

Definition set_training_data (w : Wrapper) (tr va : list array)
    (means : list (list R)) (batch : Z) : Wrapper :=
  mk_Wrapper (cfg w) batch (Some tr) (Some va) (Some means)
    (model w) (cca w) (train_correlations w) (X_mean w) (Y_mean w).

Definition set_model (w : Wrapper) (m : Model) : Wrapper :=
  mk_Wrapper (cfg w) (batch_size w) (dataset_list_train w)
    (dataset_list_val w) (dataset_means w) (Some m) (cca w)
    (train_correlations w) (X_mean w) (Y_mean w).

Definition set_cca (w : Wrapper) (c : CCA) : Wrapper :=
  mk_Wrapper (cfg w) (batch_size w) (dataset_list_train w)
    (dataset_list_val w) (dataset_means w) (model w) (Some c)
    (train_correlations w) (X_mean w) (Y_mean w).

Definition set_train_correlations (w : Wrapper) (cs : option (list R))
  : Wrapper :=
  mk_Wrapper (cfg w) (batch_size w) (dataset_list_train w)
    (dataset_list_val w) (dataset_means w) (model w) (cca w)
    (Some cs) (X_mean w) (Y_mean w).

(** *** process_training_data *)

(** One turn of [for dataset in args] (lines 68-70). The accumulator is
    [(dataset_list_train, dataset_list_val, dataset_means)]. *)
Definition center_view (train_inds val_inds : list nat)
    (acc : list array * list array * list (list R)) (dataset : array)
  : result (list array * list array * list (list R)) :=
  let '(tr, va, means) := acc in
  let* sel := take_rows dataset train_inds in
  let means := means ++ [mean_axis0 sel] in
  let* sel_train := take_rows dataset train_inds in
  let* c_train := np_sub sel_train (mean_axis0 dataset) in
  let* sel_val := take_rows dataset val_inds in
  let* c_val := np_sub sel_val (mean_axis0 dataset) in
  Ok (tr ++ [c_train], va ++ [c_val], means).

Definition process_training_data (shuffle : list nat -> list nat)
    (fuel : nat) (w : Wrapper) (args : list array) : result Wrapper :=
  let* first := match args with
                | X :: _ => Ok X
                | [] => Raise IndexError
                end in
  let num_subjects := shape0 first in
  let '(train_inds, val_inds) := partition shuffle num_subjects in
  let* '(tr, va, means) :=
    for_each (center_view train_inds val_inds) args ([], [], []) in
  let* b := adjust_batch_size fuel (Z.of_nat num_subjects)
              (batch_size w) (latent_dims (cfg w)) in
  Ok (set_training_data w tr va means b).

(** *** Data loaders *)

(** [DataLoader(TensorDataset(views...), batch_size=b)]: the dataset
    asserts that the views have one row count, the loader refuses a
    batch size below 1. *)
Record DataLoader : Type := mk_DataLoader {
  dl_dataset : list array;
  dl_batch_size : nat
}.

Definition same_size0 (views : list array) : bool :=
  match views with
  | [] => true
  | v :: _ => forallb (fun u => Nat.eqb (shape0 v) (shape0 u)) views
  end.

Definition make_DataLoader (views : list array) (b : Z)
  : result DataLoader :=
  if negb (same_size0 views) then Raise AssertionError
  else if b <=? 0 then Raise ValueError
  else Ok (mk_DataLoader views (Z.to_nat b)).

Definition head_rows (b : nat) (v : array) : array :=
  mk_ndarray (ncols v) (take b (rows v)).
Definition tail_rows (b : nat) (v : array) : array :=
  mk_ndarray (ncols v) (drop b (rows v)).

(** Consecutive blocks of [b] rows of every view, the last one shorter;
    [n] bounds the number of blocks. *)
Fixpoint batches_upto (n b : nat) (views : list array)
  : list (list array) :=
  match n with
  | O => []
  | S n' =>
      match views with
      | v :: _ =>
          if Nat.eqb (shape0 v) 0 then []
          else map (head_rows b) views
                 :: batches_upto n' b (map (tail_rows b) views)
      | [] => []
      end
  end.

(** Iterating the loader; the length of a dataset without views cannot
    be taken. *)
Definition batches (dl : DataLoader) : result (list (list array)) :=
  match dl_dataset dl with
  | [] => Raise IndexError
  | v :: _ => Ok (batches_upto (shape0 v) (dl_batch_size dl) (dl_dataset dl))
  end.

(** [for batch_idx, (x, y) in enumerate(loader)]: a batch of two views. *)
Definition unpack2 (batch : list array) : result (array * array) :=
  match batch with
  | [x; y] => Ok (x, y)
  | _ => Raise ValueError
  end.

(** [total / len(loader)]. *)
Definition mean_loss (total : R) (n : nat) : result R :=
  match n with
  | O => Raise ZeroDivisionError
  | _ => Ok (s_div total (s_of_Z (Z.of_nat n)))
  end.

(** *** train_epoch and val_epoch *)

Definition train_epoch (m : Model) (train_dataloader : DataLoader)
  : result (Model * R) :=
  let m := train_mode m in
  let* bs := batches train_dataloader in
  let* '(m, train_loss) :=
    for_each (fun '(m, train_loss) batch =>
                let* '(x, y) := unpack2 batch in
                let* '(m, l) := update_weights m x y in
                Ok (m, s_add train_loss l))
             bs (m, s_zero) in
  let* avg := mean_loss train_loss (length bs) in
  Ok (m, avg).

Definition val_epoch (m : Model) (val_dataloader : DataLoader)
  : result (Model * R) :=
  let m := eval_mode m in
  let* bs := batches val_dataloader in
  let* total_val_loss :=
    for_each (fun total batch =>
                let* '(x, y) := unpack2 batch in
                let* model_outputs := forward m x y in
                let* l := loss m x y model_outputs in
                Ok (s_add total l))
             bs s_zero in
  let* avg := mean_loss total_val_loss (length bs) in
  Ok (m, avg).

(** *** The epoch loop of fit *)

(** The local variables of [fit] that the loop updates, with the live
    model [self.model]. *)
Record TrainingState : Type := mk_TrainingState {
  ts_model : Model;
  best_model : Snapshot;
  min_val_loss : R;
  epochs_no_improve : Z;
  early_stop : bool;
  all_train_loss : list R;
  all_val_loss : list R
}.

(** The body of [for epoch in range(self.epoch_num)] (lines 119-142). *)
Definition epoch_body (patience : Z) (train_dataloader val_dataloader : DataLoader)
    (s : TrainingState) : result TrainingState :=
  if early_stop s then Ok s
  else
    let* '(m, epoch_train_loss) := train_epoch (ts_model s) train_dataloader in
    let* '(m, epoch_val_loss) := val_epoch m val_dataloader in
    let trains := all_train_loss s ++ [epoch_train_loss] in
    let vals := all_val_loss s ++ [epoch_val_loss] in
    if s_ltb epoch_val_loss (min_val_loss s) then
      Ok (mk_TrainingState m (state_dict m) epoch_val_loss 0 false
            trains vals)
    else
      let n := epochs_no_improve s + 1 in
      if n =? patience then
        Ok (mk_TrainingState (load_state_dict m (best_model s))
              (best_model s) (min_val_loss s) n true trains vals)
      else
        Ok (mk_TrainingState m (best_model s) (min_val_loss s) n false
              trains vals).

Fixpoint run_epochs (patience : Z) (train_dataloader val_dataloader : DataLoader)
    (n : nat) (s : TrainingState) : result TrainingState :=
  match n with
  | O => Ok s
  | S n' =>
      let* s' := epoch_body patience train_dataloader val_dataloader s in
      run_epochs patience train_dataloader val_dataloader n' s'
  end.

(** One epoch on its own: training, then validation, and nothing
    else. *)
Definition plain_epoch (train_dataloader val_dataloader : DataLoader)
    (m : Model) : result (Model * R * R) :=
  let* '(m, epoch_train_loss) := train_epoch m train_dataloader in
  let* '(m, epoch_val_loss) := val_epoch m val_dataloader in
  Ok (m, epoch_train_loss, epoch_val_loss).

Fixpoint plain_epochs (train_dataloader val_dataloader : DataLoader)
    (n : nat) (m : Model) : result Model :=
  match n with
  | O => Ok m
  | S n' =>
      let* '(m', _, _) := plain_epoch train_dataloader val_dataloader m in
      plain_epochs train_dataloader val_dataloader n' m'
  end.

(** [n] epochs in a row, from model [m] to model [m'], each of which
    runs to its end with a validation loss that is not below [best]. *)
Inductive non_improving (train_dataloader val_dataloader : DataLoader)
    (best : R) : nat -> Model -> Model -> Prop :=
| non_improving_O (m : Model) :
    non_improving train_dataloader val_dataloader best O m m
| non_improving_S (n : nat) (m m1 m' : Model) (tl vl : R) :
    plain_epoch train_dataloader val_dataloader m = Ok (m1, tl, vl) ->
    s_ltb vl best = false ->
    non_improving train_dataloader val_dataloader best n m1 m' ->
    non_improving train_dataloader val_dataloader best (S n) m m'.

(** *** predict_corr *)

(** [self.dataset_means[i]]. *)
Definition mean_of_view (w : Wrapper) (i : nat) : result (list R) :=
  let* means := getattr "dataset_means" (dataset_means w) in
  match means !! i with
  | Some m => Ok m
  | None => Raise IndexError
  end.

(** Line 174: [[arg - self.dataset_means[i] for i, arg in enumerate(args)]]. *)
Definition center_args (w : Wrapper) (args : list array)
  : result (list array) :=
  comprehension (fun '(i, arg) =>
                   let* m := mean_of_view w i in
                   np_sub arg m)
    (zip (seq 0 (length args)) args).

(** The two latent arrays collected so far, or the early [return] of
    the single-encoder branch. *)
Inductive latents : Type :=
| Collected (z_x z_y : array)
| Returned.

(** The outputs of [self.model(x, y)] unpacked as the method's branch
    of lines 182-193 does; [None] stands for the early return. *)
Definition latent_batch (w : Wrapper) (x y : array)
  : result (option (array * array)) :=
  if String.eqb (method (cfg w)) "DCCAE" then
    let* m := getattr "model" (model w) in
    let* outs := forward m x y in
    match outs with
    | [z_x; z_y; _; _] => Ok (Some (z_x, z_y))
    | _ => Raise ValueError
    end
  else if String.eqb (method (cfg w)) "DVCCA" then
    if both_encoders (cfg w) then
      let* m := getattr "model" (model w) in
      let* outs := forward m x y in
      if private (cfg w) then
        match outs with
        | [_; _; z_x; _; z_y; _; _; _; _; _] => Ok (Some (z_x, z_y))
        | _ => Raise ValueError
        end
      else
        match outs with
        | [_; _; z_x; _; z_y; _] => Ok (Some (z_x, z_y))
        | _ => Raise ValueError
        end
    else Ok None
  else Raise (UnboundLocalError "z_x_batch").

Definition collect_latents (w : Wrapper) (acc : latents)
    (batch : list array) : result latents :=
  match acc with
  | Returned => Ok Returned
  | Collected z_x z_y =>
      let* '(x, y) := unpack2 batch in
      let* zs := latent_batch w x y in
      match zs with
      | None => Ok Returned
      | Some (z_x_batch, z_y_batch) =>
          let* z_x := np_append0 z_x z_x_batch in
          let* z_y := np_append0 z_y z_y_batch in
          Ok (Collected z_x z_y)
      end
  end.

(** [np.empty((0, self.latent_dims))]. *)
Definition empty_latent (k : Z) : result array :=
  if k <? 0 then Raise ValueError else Ok (mk_ndarray (Z.to_nat k) []).

(** Lines 175-195: the loader is built over [self.dataset_list_train],
    and the latent codes of its batches are stacked. *)
Definition latent_codes (w : Wrapper) : result latents :=
  let* tr := getattr "dataset_list_train" (dataset_list_train w) in
  let* test_dataloader := make_DataLoader tr (batch_size w) in
  let* z_x := empty_latent (latent_dims (cfg w)) in
  let* z_y := empty_latent (latent_dims (cfg w)) in
  let* bs := batches test_dataloader in
  for_each (collect_latents w) bs (Collected z_x z_y).

(** [predict_corr(self, *args, train=False)] gives the wrapper as the
    call leaves it and the value returned ([None] for a bare
    [return]). *)
Definition predict_corr (w : Wrapper) (args : list array) (train : bool)
  : result (Wrapper * option (list R)) :=
  let* dataset_list_test := center_args w args in
  let* zs := latent_codes w in
  match zs with
  | Returned => Ok (w, None)
  | Collected z_x z_y =>
      if train then
        let* '(c, (view_1, view_2)) :=
          cca_fit_transform (latent_dims (cfg w)) z_x z_y in
        let* correlations :=
          corrcoef_diag (latent_dims (cfg w)) view_1 view_2 in
        Ok (set_cca w c, Some correlations)
      else
        let* c := getattr "cca" (cca w) in
        let* '(view_1, view_2) := cca_transform c z_x z_y in
        let* correlations :=
          corrcoef_diag (latent_dims (cfg w)) view_1 view_2 in
        Ok (w, Some correlations)
  end.

(** *** fit *)

(** The attributes that no step of [fit] assigns. *)
Definition same_settings (w w' : Wrapper) : Prop :=
  cfg w' = cfg w /\ X_mean w' = X_mean w /\ Y_mean w' = Y_mean w.

(** [dataset_list_train[i].shape[-1]]. *)
Definition input_size (tr : list array) (i : nat) : result nat :=
  match tr !! i with
  | Some v => Ok (ncols v)
  | None => Raise IndexError
  end.

(** Lines 91-106: the model class is chosen by [self.method]; any
    other method leaves [self.model] as it was. *)
Definition build_model (w : Wrapper) (tr : list array) : result Wrapper :=
  if String.eqb (method (cfg w)) "DCCAE" then
    let* d1 := input_size tr 0 in
    let* d2 := input_size tr 1 in
    let* m := new_DCCAE (cfg w) d1 d2 in
    Ok (set_model w m)
  else if String.eqb (method (cfg w)) "DVCCA" then
    let* d1 := input_size tr 0 in
    let* d2 := input_size tr 1 in
    let* m := new_DVCCA (cfg w) d1 d2 in
    Ok (set_model w m)
  else if String.eqb (method (cfg w)) "DGCCA" then
    let* m := new_DGCCA in
    Ok (set_model w m)
  else Ok w.

(** Lines 109-116: the loop's variables before the first epoch. The
    first snapshot is taken before the model is cast and moved. *)
Definition initial_state (w : Wrapper) (m : Model) : TrainingState :=
  mk_TrainingState (double_to_device m) (state_dict m)
    (s_of_Z (latent_dims (cfg w))) 0 false [] [].

(** Lines 77-143: everything up to and including the epoch loop. The
    wrapper returned holds the live model; the loop's final variables
    are returned beside it. *)
Definition fit_train (shuffle : list nat -> list nat) (fuel : nat)
    (w : Wrapper) (args : list array)
  : result (Wrapper * DataLoader * DataLoader * TrainingState * TrainingState) :=
  let* w := process_training_data shuffle fuel w args in
  let* tr := getattr "dataset_list_train" (dataset_list_train w) in
  let* train_dataloader := make_DataLoader tr (batch_size w) in
  let* va := getattr "dataset_list_val" (dataset_list_val w) in
  let* val_dataloader := make_DataLoader va (batch_size w) in
  let* w := build_model w tr in
  let* m := getattr "model" (model w) in
  let s0 := initial_state w m in
  let* s := run_epochs (patience (cfg w)) train_dataloader val_dataloader
              (Z.to_nat (epoch_num (cfg w))) s0 in
  Ok (set_model w (ts_model s), train_dataloader, val_dataloader, s0, s).

(** Lines 145-151. Plotting the loss curves leaves the wrapper as it
    is and is left out. *)
Definition fit (shuffle : list nat -> list nat) (fuel : nat)
    (w : Wrapper) (args : list array) : result Wrapper :=
  let* '(w, _, _, _, _) := fit_train shuffle fuel w args in
  if String.eqb (method (cfg w)) "DCCAE" then
    let* '(w, r) := predict_corr w args true in
    Ok (set_train_correlations w r)
  else if String.eqb (method (cfg w)) "DVCCA" then
    if both_encoders (cfg w) then
      let* '(w, r) := predict_corr w args true in
      Ok (set_train_correlations w r)
    else Ok w
  else Ok w.

(** *** The caller's arrays

    [transform_view], [predict_view] and [recon_loss] receive array
    objects and update them with [-=]. The store maps an object's
    identity to its contents; a computation on the store keeps the
    writes it made before an exception. *)

Definition ST (A : Type) : Type :=
  gmap nat array -> gmap nat array * result A.

Definition st_ret {A} (a : A) : ST A := fun st => (st, Ok a).

Definition st_lift {A} (r : result A) : ST A := fun st => (st, r).

Definition st_bind {A B} (c : ST A) (k : A -> ST B) : ST B :=
  fun st =>
    match c st with
    | (st', Ok a) => k a st'
    | (st', Raise e) => (st', Raise e)
    | (st', OutOfFuel) => (st', OutOfFuel)
    end.

(** The contents of the array object [l]; an identity the store does
    not bind stands for an argument that is no array. *)
Definition st_read (l : nat) : ST array :=
  fun st =>
    match st !! l with
    | Some X => (st, Ok X)
    | None => (st, Raise TypeError)
    end.

(** [X_new -= self.<name>]: the attribute is read first, then the
    array object is overwritten with the difference. *)
Definition isub_attr (name : string) (mean : option (list R)) (l : nat)
  : ST unit :=
  st_bind (st_lift (getattr name mean)) (fun m =>
  st_bind (st_read l) (fun X =>
  fun st =>
    match np_isub X m with
    | Ok X' => (<[l := X']> st, Ok tt)
    | Raise e => (st, Raise e)
    | OutOfFuel => (st, OutOfFuel)
    end)).

(** [if A is not None: body]. *)
Definition when_supplied {A} (a : option nat) (body : nat -> ST A)
  : ST (option A) :=
  match a with
  | Some l => st_bind (body l) (fun r => st_ret (Some r))
  | None => st_ret None
  end.

(** *** transform_view *)

(** Lines 211-220. A component is [None] when its variable ([U_new],
    [V_new]) was left unassigned. *)
Definition encode_views (w : Wrapper) (tensor_x_new tensor_y_new : option array)
  : result (option array * option array) :=
  if String.eqb (method (cfg w)) "DCCAE" then
    let* U_new := match tensor_x_new with
                  | Some t => let* m := getattr "model" (model w) in
                              let* u := encode_1 m t in Ok (Some u)
                  | None => Ok None
                  end in
    let* V_new := match tensor_y_new with
                  | Some t => let* m := getattr "model" (model w) in
                              let* v := encode_2 m t in Ok (Some v)
                  | None => Ok None
                  end in
    Ok (U_new, V_new)
  else if String.eqb (method (cfg w)) "DVCCA" then
    let* U_new := match tensor_x_new with
                  | Some t => let* m := getattr "model" (model w) in
                              let* u := encode_1_mu m t in Ok (Some u)
                  | None => Ok None
                  end in
    let* V_new := match tensor_y_new with
                  | Some t => let* m := getattr "model" (model w) in
                              let* v := encode_2_mu m t in Ok (Some v)
                  | None => Ok None
                  end in
    Ok (U_new, V_new)
  else Ok (None, None).

Definition bound (name : string) (v : option array) : result array :=
  match v with
  | Some a => Ok a
  | None => Raise (UnboundLocalError name)
  end.

(** [transform_view(self, X_new=None, Y_new=None)]. The value is
    [None] when no view is supplied (the function falls off its end),
    else the pair returned. [torch.from_numpy] shares the memory of the
    array, so the encoders see the contents at the time they run. *)
Definition transform_view (w : Wrapper) (X_new Y_new : option nat)
  : ST (option (option array * option array)) :=
  st_bind (when_supplied X_new (isub_attr "X_mean" (X_mean w))) (fun _ =>
  st_bind (when_supplied Y_new (isub_attr "Y_mean" (Y_mean w))) (fun _ =>
  st_bind (when_supplied X_new st_read) (fun tensor_x_new =>
  st_bind (when_supplied Y_new st_read) (fun tensor_y_new =>
  st_lift (
    let* '(U_new, V_new) := encode_views w tensor_x_new tensor_y_new in
    match X_new, Y_new with
    | Some _, Some _ =>
        let* u := bound "U_new" U_new in
        let* v := bound "V_new" V_new in
        Ok (Some (Some (normalize_columns u), Some (normalize_columns v)))
    | Some _, None =>
        let* u := bound "U_new" U_new in
        Ok (Some (Some (normalize_columns u), None))
    | None, Some _ =>
        let* v := bound "V_new" V_new in
        Ok (Some (None, Some (normalize_columns v)))
    | None, None => Ok None
    end))))).

(** *** predict_view *)

(** A value [predict_view] returns for one view: [None], the caller's
    own array object, or a new array. *)
Inductive view_value : Type :=
| PyNone
| CallerArray (l : nat)
| NewArray (a : array).

Definition supplied (a : option nat) : view_value :=
  match a with
  | Some l => CallerArray l
  | None => PyNone
  end.

(** Lines 232-237 (and the same lines 239-244). The accumulator is
    [(X_pred, Y_pred)], [None] for a variable not assigned yet. *)
Definition decode_views (w : Wrapper) (X_new Y_new : option nat)
    (U_new V_new : option array)
  : result (option view_value * option view_value) :=
  let* '(X_pred, Y_pred) :=
    match U_new with
    | Some u =>
        let* m := getattr "model" (model w) in
        let* y := decode_2 m u in
        Ok (Some (supplied X_new), Some (NewArray y))
    | None => Ok (None, None)
    end in
  match V_new with
  | Some v =>
      let* m := getattr "model" (model w) in
      let* x := decode_1 m v in
      Ok (Some (NewArray x), Some (supplied Y_new))
  | None => Ok (X_pred, Y_pred)
  end.

Definition bound_view (name : string) (v : option view_value)
  : result view_value :=
  match v with
  | Some a => Ok a
  | None => Raise (UnboundLocalError name)
  end.

(** [predict_view(self, X_new=None, Y_new=None)]. *)
Definition predict_view (w : Wrapper) (X_new Y_new : option nat)
  : ST (view_value * view_value) :=
  st_bind (transform_view w X_new Y_new) (fun r =>
  st_lift (
    let* '(U_new, V_new) := match r with
                            | Some p => Ok p
                            | None => Raise TypeError
                            end in
    let* '(X_pred, Y_pred) :=
      if String.eqb (method (cfg w)) "DCCAE"
      then decode_views w X_new Y_new U_new V_new
      else if String.eqb (method (cfg w)) "DVCCA"
           then decode_views w X_new Y_new U_new V_new
           else Ok (None, None) in
    let* x := bound_view "X_pred" X_pred in
    let* y := bound_view "Y_pred" Y_pred in
    Ok (x, y))).

(** *** recon_loss *)

(** Lines 257-264: the reconstructions of one batch; [None] when no
    branch assigned them. *)
Definition reconstructions (w : Wrapper) (x y : array)
  : result (option (array * array)) :=
  let* r1 :=
    if String.eqb (method (cfg w)) "DCCAE" then
      let* m := getattr "model" (model w) in
      let* outs := forward m x y in
      match outs with
      | [_; _; recon_x; recon_y] => Ok (Some (recon_x, recon_y))
      | _ => Raise ValueError
      end
    else Ok None in
  if String.eqb (method (cfg w)) "DGCCAE" then
    let* m := getattr "model" (model w) in
    let* outs := forward m x y in
    match outs with
    | [_; _; recon_x; recon_y] => Ok (Some (recon_x, recon_y))
    | _ => Raise ValueError
    end
  else if String.eqb (method (cfg w)) "DVCCA" then
    let* m := getattr "model" (model w) in
    let* model_outputs := forward m x y in
    match model_outputs with
    | recon_x :: recon_y :: _ => Ok (Some (recon_x, recon_y))
    | _ => Raise IndexError
    end
  else Ok r1.

Definition recon_batch (w : Wrapper) (acc : R * R) (batch : list array)
  : result (R * R) :=
  let '(recon_loss_x, recon_loss_y) := acc in
  let* '(x, y) := unpack2 batch in
  let* r := reconstructions w x y in
  let* '(recon_x, recon_y) :=
    match r with
    | Some p => Ok p
    | None => Raise (UnboundLocalError "recon_x")
    end in
  let* ex := mse_loss_sum recon_x x in
  let recon_loss_x :=
    s_add recon_loss_x (s_div ex (s_of_Z (Z.of_nat (shape0 x)))) in
  let* ey := mse_loss_sum recon_y y in
  let recon_loss_y :=
    s_add recon_loss_y (s_div ey (s_of_Z (Z.of_nat (shape0 y)))) in
  Ok (recon_loss_x, recon_loss_y).

(** [recon_loss(self, X_new, Y_new)]. [torch.tensor] copies the arrays
    after both have been centred. *)
Definition recon_loss (w : Wrapper) (X_new Y_new : nat) : ST (R * R) :=
  st_bind (isub_attr "X_mean" (X_mean w) X_new) (fun _ =>
  st_bind (isub_attr "Y_mean" (Y_mean w) Y_new) (fun _ =>
  st_bind (st_read X_new) (fun x =>
  st_bind (st_read Y_new) (fun y =>
  st_lift (
    let* test_dataloader := make_DataLoader [x; y] 100 in
    let* bs := batches test_dataloader in
    for_each (recon_batch w) bs (s_zero, s_zero)))))).

End Wrapper.

Arguments Wrapper R Model CCA : clear implicits.
Arguments TrainingState R Model Snapshot : clear implicits.
Arguments DataLoader R : clear implicits.

(** ** A reference instance

    Exact rational arithmetic for the scalars, and the smallest
    collaborators that satisfy the interfaces: a network that counts
    the weight updates it has received, encodes and decodes by the
    identity and whose loss depends on that count alone, and an
    alignment that leaves the latent codes as they are. It is used to
    run the wrapper on concrete data. *)

Module Ref.

#[export] Instance Q_scalar : Scalar Q := {|
  s_zero := 0%Q;
  s_add a b := Qred (a + b);
  s_sub a b := Qred (a - b);
  s_mul a b := Qred (a * b);
  s_div a b := Qred (a / b);
  s_sqrt a := (Z.sqrt (Qnum a) # Pos.sqrt (Qden a))%Q;
  s_of_Z z := inject_Z z;
  s_ltb a b := match (a ?= b)%Q with Lt => true | _ => false end
|}.

Record net : Type := mk_net {
  steps : Z;
  variational : bool
}.

(** The loss after [n] weight updates: smallest at two updates. *)
Definition net_loss (n : Z) : Q := (((n - 2) * (n - 2)) # 100)%Q.

#[export] Instance net_adapter : ModelAdapter Q net Z := {|
  new_DCCAE _ _ _ := Ok (mk_net 0 false);
  new_DVCCA _ _ _ := Ok (mk_net 0 true);
  new_DGCCA := Raise (AttributeError "DCCA");
  state_dict m := steps m;
  load_state_dict m s := mk_net s (variational m);
  double_to_device m := m;
  train_mode m := m;
  eval_mode m := m;
  update_weights m _ _ := Ok (mk_net (steps m + 1) (variational m), 1%Q);
  forward m x y :=
    Ok (if variational m then [x; y; x; x; y; y] else [x; y; x; y]);
  loss m _ _ _ := Ok (net_loss (steps m));
  encode_1 _ x := Ok x;
  encode_2 _ y := Ok y;
  encode_1_mu _ x := Ok x;
  encode_2_mu _ y := Ok y;
  decode_1 _ z := Ok z;
  decode_2 _ z := Ok z
|}.

#[export] Instance unit_numerics : Numerics Q unit := {|
  cca_fit_transform _ z_x z_y := Ok (tt, (z_x, z_y));
  cca_transform _ z_x z_y := Ok (z_x, z_y);
  corrcoef_diag k _ _ := Ok (repeat 1%Q (Z.to_nat k));
  mse_loss_sum _ _ := Ok 0%Q
|}.

Definition config (k epochs : Z) (meth : string) (pat : Z) (both : bool)
  : Config Q :=
  mk_Config k (1 # 1000)%Q epochs meth "cca" 0%Q false pat both
    None None "fcn" "fcn".

(** One feature, five samples: four zeros and a ten. *)
Definition column (xs : list Z) : ndarray Q :=
  mk_ndarray 1 (map (fun x => [inject_Z x]) xs).

Definition view5 : ndarray Q := column [0; 0; 0; 0; 10].

(** The shuffle that leaves the indices in order. *)
Definition in_order (l : list nat) : list nat := l.

(** A wrapper as [__init__] leaves it: [k] latent dimensions, a budget
    of [epochs] epochs, batch size 1. *)
Definition fresh (k epochs : Z) (meth : string) (pat : Z) (both : bool)
  : Wrapper Q net unit :=
  init (config k epochs meth pat both) 1.

(** [w.fit(view5, view5)], or [w] itself where the call fails. *)
Definition fitted (w : Wrapper Q net unit) : Wrapper Q net unit :=
  match fit in_order 10 w [view5; view5] with
  | Ok w' => w'
  | _ => w
  end.

(** A caller assigning [w.X_mean] and [w.Y_mean] by hand; no method of
    the class does. *)
Definition with_means (w : Wrapper Q net unit) (mx my : list Q)
  : Wrapper Q net unit :=
  mk_Wrapper (cfg w) (batch_size w) (dataset_list_train w)
    (dataset_list_val w) (dataset_means w) (model w) (cca w)
    (train_correlations w) (Some mx) (Some my).

(** The loaders [fit] builds over [view5, view5] with batch size 2, and
    the loop state before the first epoch. *)
Definition train_loader : DataLoader Q :=
  mk_DataLoader [column [-2; -2; -2; -2]; column [-2; -2; -2; -2]] 2.
Definition val_loader : DataLoader Q :=
  mk_DataLoader [column [8]; column [8]] 2.
Definition start : TrainingState Q net Z :=
  mk_TrainingState (mk_net 0 false) 0 1%Q 0 false [] [].

(** The loop state after a budget of six epochs with patience 2. *)
Definition after_six : TrainingState Q net Z :=
  match run_epochs 2 train_loader val_loader 6 start with
  | Ok s => s
  | _ => start
  end.

(** The same with [X_mean] alone. *)
Definition with_X_mean (w : Wrapper Q net unit) (mx : list Q)
  : Wrapper Q net unit :=
  mk_Wrapper (cfg w) (batch_size w) (dataset_list_train w)
    (dataset_list_val w) (dataset_means w) (model w) (cca w)
    (train_correlations w) (Some mx) (Y_mean w).



(** A caller's store with two array objects. *)
Definition two_arrays : gmap nat (ndarray Q) :=
  <[1%nat := column [1; 2; 3]]> (<[0%nat := view5]> ∅).

End Ref.

(** * Properties *)

(** ** The error monad *)

Lemma bind_Ok {A B} (r : result A) (k : A -> result B) (b : B) :
  Py.bind r k = Ok b -> exists a, r = Ok a /\ k a = Ok b.
Proof. destruct r as [a | e |]; simpl; intros Hk; try discriminate; eauto. Qed.

(** Splits a hypothesis [let* x := c in k = Ok b] into its two steps. *)
Ltac inv_bind H :=
  let a := fresh "a" in
  let Ha := fresh "Hstep" in
  apply bind_Ok in H; destruct H as (a & Ha & H).

(** ** The train/validation split *)

Lemma py_round_ratio_tenths (S : Z) :
  0 <= S ->
  8 * S - 4 <= 10 * py_round_ratio (8 * S) 10 <= 8 * S + 4.
Proof.
  intros HS. unfold py_round_ratio.
  pose proof (Z.div_mod (8 * S) 10 ltac:(lia)) as Hdm.
  pose proof (Z.mod_pos_bound (8 * S) 10 ltac:(lia)) as Hr.
  set (q := 8 * S / 10) in *. set (r := (8 * S) mod 10) in *.
  destruct (Z.ltb_spec (2 * r) 10); [lia |].
  destruct (Z.ltb_spec 10 (2 * r)); [lia |].
  lia.
Qed.

Lemma split_point_nearest (S : nat) :
  (8 * S - 4 <= 10 * split_point S <= 8 * S + 4)%nat.
Proof.
  pose proof (py_round_ratio_tenths (Z.of_nat S) ltac:(lia)) as Hr.
  unfold split_point. lia.
Qed.

Lemma split_point_le (S : nat) : (split_point S <= S)%nat.
Proof. pose proof (split_point_nearest S). lia. Qed.

(** C7. Whatever permutation the shuffle draws, the partition cuts the
    shuffled index sequence 0..S-1 at the integer nearest to 0.8 * S:
    the first segment is the training indices and the rest the
    validation indices; the two have no index in common and none
    twice, together they are exactly the row indices, and their sizes
    add up to S. *)
Theorem partition_disjoint_cover (shuffle : list nat -> list nat) (S : nat) :
  (forall l, shuffle l ≡ₚ l) ->
  let train_inds := (partition shuffle S).1 in
  let val_inds := (partition shuffle S).2 in
  train_inds = take (split_point S) (shuffle (seq 0 S))
  /\ val_inds = drop (split_point S) (shuffle (seq 0 S))
  /\ (8 * S - 4 <= 10 * split_point S <= 8 * S + 4)%nat
  /\ length train_inds = split_point S
  /\ (length train_inds + length val_inds = S)%nat
  /\ NoDup train_inds /\ NoDup val_inds
  /\ (forall i, i ∈ train_inds -> i ∉ val_inds)
  /\ (forall i, (i < S)%nat <-> i ∈ train_inds \/ i ∈ val_inds).
Proof.
  intros Hperm train_inds val_inds. subst train_inds val_inds.
  unfold partition; cbn [fst snd].
  set (all_inds := shuffle (seq 0 S)).
  assert (Hlen : length all_inds = S).
  { unfold all_inds. rewrite (Permutation_length (Hperm _)). apply length_seq. }
  assert (Hnd : NoDup (take (split_point S) all_inds
                        ++ drop (split_point S) all_inds)).
  { rewrite take_drop. unfold all_inds. rewrite (Hperm _). apply NoDup_seq. }
  apply NoDup_app in Hnd as (Hnd1 & Hdisj & Hnd2).
  pose proof (split_point_le S) as Hle.
  pose proof (split_point_nearest S) as Hnear.
  assert (Hcover : forall i, (i < S)%nat <->
            i ∈ take (split_point S) all_inds
            \/ i ∈ drop (split_point S) all_inds).
  { intros i. rewrite <- elem_of_app, take_drop. unfold all_inds.
    rewrite (Hperm _), elem_of_seq. lia. }
  repeat split; auto; try lia; try apply Hcover; try tauto.
  - rewrite length_take. lia.
  - rewrite length_take, length_drop. lia.
Qed.

(** ** The batch-size loop *)

Lemma adjust_batch_size_sound (fuel : nat) (S b L b' : Z) :
  adjust_batch_size fuel S b L = Ok b' ->
  b <= b' /\ b' <> 0 /\ L <= S mod b'
  /\ (forall c, b <= c < b' -> c = 0 \/ S mod c < L).
Proof.
  revert b; induction fuel as [| fuel IH]; intros b; simpl; [discriminate |].
  destruct (Z.eqb_spec b 0) as [-> | Hb]; [discriminate |].
  destruct (Z.ltb_spec (S mod b) L) as [Hlt | Hge].
  - intros Hrec. apply IH in Hrec as (Hle & Hnz & Hmod & Hmin).
    split_and!; [lia | done | done |].
    intros c Hc. destruct (Z.eq_dec c b) as [-> | Hne]; [auto |].
    apply Hmin. lia.
  - intros [= <-]. split_and!; [lia | done | lia | lia].
Qed.

Lemma adjust_batch_size_more_fuel (fuel fuel' : nat) (S b L b' : Z) :
  (fuel <= fuel')%nat ->
  adjust_batch_size fuel S b L = Ok b' ->
  adjust_batch_size fuel' S b L = Ok b'.
Proof.
  revert fuel' b; induction fuel as [| fuel IH]; intros fuel' b Hle;
    simpl; [discriminate |].
  destruct fuel' as [| fuel']; [lia |]. simpl.
  destruct (b =? 0); [done |].
  destruct (S mod b <? L); [| done].
  apply IH. lia.
Qed.

Lemma adjust_batch_size_terminates (S b L : Z) :
  1 <= b -> L <= S -> 0 <= S ->
  exists b', adjust_batch_size (Datatypes.S (Z.to_nat (S + 1 - b))) S b L = Ok b'
             /\ b' <= Z.max b (S + 1).
Proof.
  intros Hb HL HS.
  remember (Z.to_nat (S + 1 - b)) as n eqn:Hn.
  revert b Hb Hn; induction n as [| n IH]; intros b Hb Hn.
  - (* the batch size is already above the sample count *)
    exists b. simpl.
    destruct (Z.eqb_spec b 0); [lia |].
    rewrite Z.mod_small by lia.
    destruct (Z.ltb_spec S L); [lia |]. split; [done | lia].
  - simpl. destruct (Z.eqb_spec b 0); [lia |].
    destruct (Z.ltb_spec (S mod b) L).
    + destruct (IH (b + 1)) as (b' & Hrun & Hmax); [lia | lia |].
      exists b'. split; [exact Hrun | lia].
    + exists b. split; [done | lia].
Qed.

Lemma adjust_batch_size_no_raise (fuel : nat) (S b L : Z) (e : exn) :
  1 <= b -> adjust_batch_size fuel S b L <> Raise e.
Proof.
  revert b; induction fuel as [| fuel IH]; intros b Hb; simpl; [discriminate |].
  destruct (Z.eqb_spec b 0); [lia |].
  destruct (S mod b <? L); [apply IH; lia | discriminate].
Qed.

Lemma adjust_batch_size_diverges (fuel : nat) (S b L : Z) :
  1 <= b -> 0 <= S < L ->
  adjust_batch_size fuel S b L = OutOfFuel.
Proof.
  revert b; induction fuel as [| fuel IH]; intros b Hb HS; simpl; [done |].
  destruct (Z.eqb_spec b 0); [lia |].
  pose proof (Z.mod_le S b ltac:(lia) ltac:(lia)).
  destruct (Z.ltb_spec (S mod b) L); [| lia].
  apply IH; lia.
Qed.

Section ProcessTrainingData.
Context {R Model Snapshot CCA : Type}.
Context `{Scalar R} `{ModelAdapter R Model Snapshot} `{Numerics R CCA}.

Local Abbreviation array := (ndarray R).
Local Abbreviation Wrapper := (Wrapper R Model CCA).

(** What a successful call of [process_training_data] went through. *)
Lemma process_training_data_Ok (shuffle : list nat -> list nat) (fuel : nat)
    (w w' : Wrapper) (args : list array) :
  process_training_data shuffle fuel w args = Ok w' ->
  exists first rest tr va means b,
    args = first :: rest
    /\ for_each (center_view (partition shuffle (shape0 first)).1
                             (partition shuffle (shape0 first)).2)
         args ([], [], []) = Ok (tr, va, means)
    /\ adjust_batch_size fuel (Z.of_nat (shape0 first)) (batch_size w)
         (latent_dims (cfg w)) = Ok b
    /\ w' = set_training_data w tr va means b.
Proof.
  unfold process_training_data. intros Hrun.
  destruct args as [| first rest]; [discriminate |]. cbn [Py.bind] in Hrun.
  destruct (partition shuffle (shape0 first)) as [train_inds val_inds] eqn:Hpart.
  inv_bind Hrun. destruct a as [[tr va] means].
  inv_bind Hrun. injection Hrun as <-.
  exists first, rest, tr, va, means, a. rewrite Hpart. cbn [fst snd]. auto.
Qed.

(** Nothing but the training data and the batch size is assigned. *)
Lemma process_training_data_frame (shuffle : list nat -> list nat)
    (fuel : nat) (w w' : Wrapper) (args : list array) :
  process_training_data shuffle fuel w args = Ok w' ->
  cfg w' = cfg w /\ model w' = model w /\ cca w' = cca w
  /\ X_mean w' = X_mean w /\ Y_mean w' = Y_mean w.
Proof.
  intros Hrun.
  apply process_training_data_Ok in Hrun
    as (first & rest & tr & va & means & b & _ & _ & _ & ->).
  repeat split.
Qed.

(** C6. When [process_training_data] returns, on views of S rows, the
    batch size it leaves in the wrapper satisfies
    S % batch_size >= latent_dims and is at least the batch size the
    wrapper was configured with. *)
Theorem effective_batch_size_invariant (shuffle : list nat -> list nat)
    (fuel : nat) (w w' : Wrapper) (first : array) (rest : list array) :
  process_training_data shuffle fuel w (first :: rest) = Ok w' ->
  latent_dims (cfg w') <= Z.of_nat (shape0 first) mod batch_size w'
  /\ batch_size w <= batch_size w'.
Proof.
  intros Hrun.
  apply process_training_data_Ok in Hrun
    as (first' & rest' & tr & va & means & b & Hargs & _ & Hloop & ->).
  injection Hargs as <- <-.
  apply adjust_batch_size_sound in Hloop as (Hle & _ & Hmod & _).
  cbn. split; assumption.
Qed.

(** C5 (as the code has it). From a configured batch size of at least 1
    the loop raises nothing, whatever the step budget. With no more
    latent dimensions than samples it stops: it returns the first batch
    size from the configured one upwards with
    S % batch_size >= latent_dims, which is at most
    max(batch_size, S + 1), and any larger step budget gives the same
    answer. With fewer samples than latent dimensions nothing bounds
    it: no batch size passes the test and no step budget makes the
    loop return or raise. *)
Theorem batch_size_loop_unguarded (S b L : Z) :
  1 <= b ->
  (forall fuel e, adjust_batch_size fuel S b L <> Raise e)
  /\ (L <= S ->
      exists b',
        (forall fuel, (Z.to_nat (S + 1 - b) < fuel)%nat ->
                      adjust_batch_size fuel S b L = Ok b')
        /\ b <= b' <= Z.max b (S + 1)
        /\ L <= S mod b'
        /\ (forall c, b <= c < b' -> S mod c < L))
  /\ (0 <= S < L ->
      (forall c, b <= c -> S mod c < L)
      /\ (forall fuel, adjust_batch_size fuel S b L = OutOfFuel)).
Proof.
  intros Hb.
  split; [intros fuel e; apply adjust_batch_size_no_raise; exact Hb |].
  split.
  - intros HL. destruct (Z.lt_ge_cases S 0) as [Hneg | Hpos].
    + (* a negative count, for completeness: the first test succeeds *)
      exists b. assert (Hm : L <= S mod b).
      { pose proof (Z.mod_pos_bound S b ltac:(lia)). lia. }
      split_and!; try lia.
      intros [| fuel] Hf; [lia |]. simpl.
      destruct (Z.eqb_spec b 0); [lia |].
      destruct (Z.ltb_spec (S mod b) L); [lia | done].
    + destruct (adjust_batch_size_terminates S b L Hb HL Hpos)
        as (b' & Hrun & Hmax).
      pose proof (adjust_batch_size_sound _ _ _ _ _ Hrun)
        as (Hle & Hnz & Hmod & Hmin).
      exists b'. split_and!; try lia.
      * intros fuel Hf. eapply adjust_batch_size_more_fuel; [| exact Hrun]. lia.
      * intros c Hc. destruct (Hmin c Hc); lia.
  - intros HS. split.
    + intros c Hc. pose proof (Z.mod_le S c ltac:(lia) ltac:(lia)). lia.
    + intros fuel. apply adjust_batch_size_diverges; lia.
Qed.

End ProcessTrainingData.

(** ** Data loaders *)

Section Loaders.
Context {R : Type}.

(** The bound on the number of blocks is never the reason a loader
    ends: with a batch size of at least 1, the blocks of a view put end
    to end are its rows. *)
Lemma batches_upto_cover (b n : nat) (v : ndarray R) (rest : list (ndarray R)) :
  (0 < b)%nat -> (shape0 v <= n)%nat ->
  concat (map (fun batch => match batch with
                            | x :: _ => rows x
                            | [] => []
                            end)
              (batches_upto n b (v :: rest)))
  = rows v.
Proof.
  intros Hb. revert v rest; induction n as [| n IH]; intros v rest Hn.
  - unfold shape0 in Hn. destruct (rows v); [reflexivity | simpl in Hn; lia].
  - simpl. destruct (Nat.eqb_spec (shape0 v) 0) as [Hz | Hnz].
    + unfold shape0 in Hz. destruct (rows v); [reflexivity | discriminate].
    + cbn [map concat head_rows rows].
      rewrite (IH (tail_rows b v) (map (tail_rows b) rest)).
      * apply take_drop.
      * unfold shape0, tail_rows in *. cbn. rewrite length_drop. lia.
Qed.

End Loaders.

(** ** The epoch loop *)

Section EpochLoop.
Context {R Model Snapshot CCA : Type}.
Context `{Scalar R} `{ModelAdapter R Model Snapshot} `{Numerics R CCA}.

Local Abbreviation TrainingState := (TrainingState R Model Snapshot).
Local Abbreviation DataLoader := (DataLoader R).

Variables (pat : Z) (tdl vdl : DataLoader).

Lemma epoch_body_stopped (s : TrainingState) :
  early_stop s = true -> epoch_body pat tdl vdl s = Ok s.
Proof. intros Hs. unfold epoch_body. rewrite Hs. reflexivity. Qed.

Lemma run_epochs_stopped (n : nat) (s : TrainingState) :
  early_stop s = true -> run_epochs pat tdl vdl n s = Ok s.
Proof.
  intros Hs. induction n as [| n IH]; simpl; [reflexivity |].
  rewrite epoch_body_stopped by assumption. exact IH.
Qed.

Lemma run_epochs_add (a b : nat) (s : TrainingState) :
  run_epochs pat tdl vdl (a + b) s
  = Py.bind (run_epochs pat tdl vdl a s) (run_epochs pat tdl vdl b).
Proof.
  revert s; induction a as [| a IH]; intros s; simpl; [reflexivity |].
  destruct (epoch_body pat tdl vdl s); simpl; auto.
Qed.

(** The three ways one turn of the loop leaves a running state. *)
Lemma epoch_body_running (s s' : TrainingState) :
  early_stop s = false ->
  epoch_body pat tdl vdl s = Ok s' ->
  exists m tl vl,
    plain_epoch tdl vdl (ts_model s) = Ok (m, tl, vl)
    /\ all_train_loss s' = all_train_loss s ++ [tl]
    /\ all_val_loss s' = all_val_loss s ++ [vl]
    /\ ((s_ltb vl (min_val_loss s) = true
         /\ ts_model s' = m /\ best_model s' = state_dict m
         /\ min_val_loss s' = vl /\ epochs_no_improve s' = 0
         /\ early_stop s' = false)
        \/ (s_ltb vl (min_val_loss s) = false
            /\ epochs_no_improve s + 1 <> pat
            /\ ts_model s' = m /\ best_model s' = best_model s
            /\ min_val_loss s' = min_val_loss s
            /\ epochs_no_improve s' = epochs_no_improve s + 1
            /\ early_stop s' = false)
        \/ (s_ltb vl (min_val_loss s) = false
            /\ epochs_no_improve s + 1 = pat
            /\ ts_model s' = load_state_dict m (best_model s)
            /\ best_model s' = best_model s
            /\ min_val_loss s' = min_val_loss s
            /\ epochs_no_improve s' = pat
            /\ early_stop s' = true)).
Proof.
  intros Hrun Hbody. unfold epoch_body in Hbody. rewrite Hrun in Hbody.
  unfold plain_epoch.
  destruct (train_epoch (ts_model s) tdl) as [[m1 tl] | e |]; try discriminate.
  cbn [Py.bind] in *.
  destruct (val_epoch m1 vdl) as [[m2 vl] | e |]; try discriminate.
  cbn [Py.bind] in *.
  exists m2, tl, vl. split; [reflexivity |].
  destruct (s_ltb vl (min_val_loss s)) eqn:Hlt.
  - injection Hbody as <-. cbn. auto 10.
  - destruct (Z.eqb_spec (epochs_no_improve s + 1) pat) as [Heq | Hne];
      injection Hbody as <-; cbn.
    + split_and!; try done. right; right. rewrite Heq. auto 10.
    + split_and!; try done. right; left. auto 10.
Qed.

(** Once stopped, always stopped. *)
Lemma run_epochs_running_before (n : nat) (s s' : TrainingState) :
  run_epochs pat tdl vdl n s = Ok s' ->
  early_stop s' = false -> early_stop s = false.
Proof.
  intros Hrun Hs'. destruct (early_stop s) eqn:Hs; [| reflexivity].
  rewrite run_epochs_stopped in Hrun by assumption.
  injection Hrun as <-. congruence.
Qed.

(** A run that has not stopped is the plain succession of its epochs:
    no snapshot was loaded on the way. *)
Lemma run_epochs_running (n : nat) (s s' : TrainingState) :
  run_epochs pat tdl vdl n s = Ok s' ->
  early_stop s' = false ->
  plain_epochs tdl vdl n (ts_model s) = Ok (ts_model s')
  /\ length (all_train_loss s') = (length (all_train_loss s) + n)%nat.
Proof.
  revert s; induction n as [| n IH]; intros s Hrun Hs'; simpl in *.
  - injection Hrun as <-. split; [reflexivity | lia].
  - inv_bind Hrun.
    pose proof (run_epochs_running_before _ _ _ Hrun Hs') as Ha.
    destruct (early_stop s) eqn:Hs.
    { rewrite epoch_body_stopped in Hstep by assumption.
      injection Hstep as <-. congruence. }
    destruct (epoch_body_running _ _ Hs Hstep)
      as (m & tl & vl & Hplain & Htl & _ & Hcases).
    rewrite Hplain. cbn [Py.bind].
    destruct (IH a Hrun Hs') as (Hmodel & Hlen).
    assert (Hm : ts_model a = m).
    { destruct Hcases as [Hc | [Hc | Hc]]; try tauto.
      destruct Hc as (_ & _ & _ & _ & _ & _ & Hstop). congruence. }
    rewrite <- Hm. split; [exact Hmodel |].
    rewrite Hlen, Htl, length_app. simpl. lia.
Qed.

(** A run that stopped did so by loading the best snapshot. *)
Lemma run_epochs_stopped_restored (n : nat) (s s' : TrainingState) :
  run_epochs pat tdl vdl n s = Ok s' ->
  early_stop s = false -> early_stop s' = true ->
  exists m, ts_model s' = load_state_dict m (best_model s').
Proof.
  revert s; induction n as [| n IH]; intros s Hrun Hs Hs'; simpl in *.
  - injection Hrun as <-. congruence.
  - inv_bind Hrun.
    destruct (early_stop a) eqn:Ha.
    + rewrite run_epochs_stopped in Hrun by assumption. injection Hrun as <-.
      destruct (epoch_body_running _ _ Hs Hstep)
        as (m & tl & vl & _ & _ & _ & Hcases).
      destruct Hcases as [Hc | [Hc | Hc]].
      * destruct Hc as (_ & _ & _ & _ & _ & Hstop). congruence.
      * destruct Hc as (_ & _ & _ & _ & _ & _ & Hstop). congruence.
      * destruct Hc as (_ & _ & Hm & Hb & _). exists m. rewrite Hm, Hb. reflexivity.
    + eapply IH; eauto.
Qed.

(** From a running state whose counter is [n] short of the patience,
    [n] non-improving epochs end in the stop, and not earlier. *)
Lemma stall_until_patience (n : nat) (s : TrainingState) (m_end : Model) :
  early_stop s = false ->
  (0 < n)%nat ->
  epochs_no_improve s + Z.of_nat n = pat ->
  non_improving tdl vdl (min_val_loss s) n (ts_model s) m_end ->
  exists s',
    run_epochs pat tdl vdl n s = Ok s'
    /\ early_stop s' = true
    /\ ts_model s' = load_state_dict m_end (best_model s)
    /\ best_model s' = best_model s
    /\ length (all_train_loss s') = (length (all_train_loss s) + n)%nat
    /\ (forall k, (k < n)%nat ->
          exists sk, run_epochs pat tdl vdl k s = Ok sk
                     /\ early_stop sk = false).
Proof.
  revert s; induction n as [| n IH]; intros s Hs Hn Hcnt Hstall; [lia |].
  revert Hcnt.
  inversion Hstall as [| n' m m1 m' tl vl Hplain Hlt Hrest]; subst.
  intros Hcnt.
  unfold plain_epoch in Hplain.
  destruct (train_epoch (ts_model s) tdl) as [[mt tl'] | e |] eqn:Htrain;
    try discriminate. cbn [Py.bind] in Hplain.
  destruct (val_epoch mt vdl) as [[mv vl'] | e |] eqn:Hval;
    try discriminate. cbn [Py.bind] in Hplain.
  injection Hplain as -> -> ->.
  assert (Hbody : exists s1,
             epoch_body pat tdl vdl s = Ok s1
             /\ all_train_loss s1 = all_train_loss s ++ [tl]
             /\ best_model s1 = best_model s
             /\ min_val_loss s1 = min_val_loss s
             /\ ((n = O /\ early_stop s1 = true
                  /\ ts_model s1 = load_state_dict m1 (best_model s))
                 \/ ((0 < n)%nat /\ early_stop s1 = false
                     /\ ts_model s1 = m1
                     /\ epochs_no_improve s1 = epochs_no_improve s + 1))).
  { unfold epoch_body. rewrite Hs, Htrain. cbn [Py.bind]. rewrite Hval.
    cbn [Py.bind]. rewrite Hlt.
    destruct (Z.eqb_spec (epochs_no_improve s + 1) pat) as [Heq | Hne];
      eexists; (split; [reflexivity |]); cbn; split_and!; try done.
    - left. split_and!; try done. lia.
    - right. split_and!; try done. lia. }
  destruct Hbody as (s1 & Hbody & Htl & Hbest & Hmin & Hcase).
  simpl. rewrite Hbody. cbn [Py.bind].
  destruct Hcase as [(-> & Hstop & Hmodel) | (Hpos & Hrun1 & Hmodel & Hcnt1)].
  - revert Hcnt. inversion Hrest; subst. intros Hcnt. exists s1. simpl.
    split_and!; try done.
    + rewrite Htl, length_app. simpl. lia.
    + intros k Hk. assert (k = O) as -> by lia. exists s. auto.
  - destruct (IH s1 Hrun1 Hpos) as (s' & Hrun & Hstop & Hm & Hb & Hlen & Hbefore).
    { lia. }
    { rewrite Hmin, Hmodel. exact Hrest. }
    exists s'. split_and!; try done.
    + rewrite Hm, Hbest. reflexivity.
    + congruence.
    + rewrite Hlen, Htl, length_app. simpl. lia.
    + intros [| k] Hk; [exists s; auto |].
      destruct (Hbefore k ltac:(lia)) as (sk & Hsk & Hrunning).
      exists sk. simpl. rewrite Hbody. auto.
Qed.

End EpochLoop.

Section EarlyStopping.
Context {R Model Snapshot CCA : Type}.
Context `{Scalar R} `{ModelAdapter R Model Snapshot} `{Numerics R CCA}.

Local Abbreviation TrainingState := (TrainingState R Model Snapshot).
Local Abbreviation DataLoader := (DataLoader R).

Lemma run_epochs_prefix (pat : Z) (tdl vdl : DataLoader) (k n : nat)
    (s s' : TrainingState) :
  (k <= n)%nat ->
  run_epochs pat tdl vdl n s = Ok s' ->
  exists sk, run_epochs pat tdl vdl k s = Ok sk
             /\ run_epochs pat tdl vdl (n - k) sk = Ok s'.
Proof.
  intros Hk Hrun. replace n with (k + (n - k))%nat in Hrun at 1 by lia.
  rewrite run_epochs_add in Hrun. inv_bind Hrun. eauto.
Qed.

(** C3. Let epoch [e0] (counted from 0) be an improving one: the loop
    is still running when it starts and its validation loss is below
    the best seen. If each of the next [patience] epochs ends with a
    validation loss that is not below that of epoch [e0], and the
    budget [N] has room for them, then the loop is still running after
    every epoch before [e0 + patience], it stops in epoch
    [e0 + patience], the live model is then the model of that epoch
    with the snapshot of epoch [e0] loaded into it, and the rest of the
    budget changes nothing: [e0 + patience + 1] training epochs have
    run in all. *)
Theorem early_stop_at_patience (pat : Z) (tdl vdl : DataLoader)
    (N e0 : nat) (s0 s_prev : TrainingState) (m_imp m_end : Model)
    (tl vl : R) :
  run_epochs pat tdl vdl e0 s0 = Ok s_prev ->
  early_stop s_prev = false ->
  plain_epoch tdl vdl (ts_model s_prev) = Ok (m_imp, tl, vl) ->
  s_ltb vl (min_val_loss s_prev) = true ->
  0 < pat ->
  non_improving tdl vdl vl (Z.to_nat pat) m_imp m_end ->
  (e0 + Z.to_nat pat < N)%nat ->
  exists s_stop,
    run_epochs pat tdl vdl N s0 = Ok s_stop
    /\ run_epochs pat tdl vdl (e0 + Z.to_nat pat + 1) s0 = Ok s_stop
    /\ early_stop s_stop = true
    /\ ts_model s_stop = load_state_dict m_end (state_dict m_imp)
    /\ (forall k, (k <= e0 + Z.to_nat pat)%nat ->
          exists sk, run_epochs pat tdl vdl k s0 = Ok sk
                     /\ early_stop sk = false)
    /\ length (all_train_loss s_stop)
       = (length (all_train_loss s0) + (e0 + Z.to_nat pat + 1))%nat.
Proof.
  intros Hprev Hrunning Hplain Himp Hpat Hstall HN.
  (* the improving epoch *)
  assert (Hbody : exists s_imp,
             epoch_body pat tdl vdl s_prev = Ok s_imp
             /\ early_stop s_imp = false /\ ts_model s_imp = m_imp
             /\ best_model s_imp = state_dict m_imp
             /\ min_val_loss s_imp = vl /\ epochs_no_improve s_imp = 0
             /\ all_train_loss s_imp = all_train_loss s_prev ++ [tl]).
  { unfold plain_epoch in Hplain. unfold epoch_body. rewrite Hrunning.
    destruct (train_epoch (ts_model s_prev) tdl) as [[mt tl'] | e |];
      try discriminate. cbn [Py.bind] in *.
    destruct (val_epoch mt vdl) as [[mv vl'] | e |]; try discriminate.
    cbn [Py.bind] in *. injection Hplain as -> -> ->.
    rewrite Himp. eexists. split; [reflexivity |]. cbn. auto 10. }
  destruct Hbody as (s_imp & Hbody & Hrun_imp & Hm_imp & Hbest & Hmin & Hcnt & Htl).
  (* the epochs that follow it *)
  destruct (stall_until_patience pat tdl vdl (Z.to_nat pat) s_imp m_end)
    as (s_stop & Hstop_run & Hstop & Hmodel & _ & Hlen & Hbefore);
    [assumption | lia | lia | rewrite Hmin, Hm_imp; exact Hstall |].
  assert (Hupto : run_epochs pat tdl vdl (e0 + Z.to_nat pat + 1) s0 = Ok s_stop).
  { replace (e0 + Z.to_nat pat + 1)%nat with (e0 + (1 + Z.to_nat pat))%nat by lia.
    rewrite run_epochs_add, Hprev. cbn [Py.bind].
    rewrite run_epochs_add. cbn [run_epochs]. rewrite Hbody. cbn [Py.bind].
    exact Hstop_run. }
  destruct (run_epochs_running pat tdl vdl e0 s0 s_prev Hprev Hrunning)
    as (_ & Hlen_prev).
  exists s_stop. split_and!.
  - replace N with ((e0 + Z.to_nat pat + 1) + (N - (e0 + Z.to_nat pat + 1)))%nat
      by lia.
    rewrite run_epochs_add, Hupto. cbn [Py.bind].
    apply run_epochs_stopped. exact Hstop.
  - exact Hupto.
  - exact Hstop.
  - rewrite Hmodel, Hbest. reflexivity.
  - intros k Hk. destruct (Nat.le_gt_cases k e0) as [Hle | Hgt].
    + destruct (run_epochs_prefix pat tdl vdl k e0 s0 s_prev Hle Hprev)
        as (sk & Hsk & Hrest).
      exists sk. split; [exact Hsk |].
      eapply run_epochs_running_before; eauto.
    + destruct (Hbefore (k - e0 - 1)%nat ltac:(lia)) as (sk & Hsk & Hsk_run).
      exists sk. split; [| exact Hsk_run].
      replace k with (e0 + (1 + (k - e0 - 1)))%nat by lia.
      rewrite run_epochs_add, Hprev. cbn [Py.bind].
      rewrite run_epochs_add. cbn [run_epochs]. rewrite Hbody. cbn [Py.bind].
      exact Hsk.
  - rewrite Hlen, Htl, length_app, Hlen_prev. simpl. lia.
Qed.

End EarlyStopping.

(** ** predict_corr *)

Section PredictCorr.
Context {R Model Snapshot CCA : Type}.
Context `{Scalar R} `{ModelAdapter R Model Snapshot} `{Numerics R CCA}.

Local Abbreviation array := (ndarray R).
Local Abbreviation Wrapper := (Wrapper R Model CCA).

(** Only the single-encoder branch leaves the batch loop early. *)
Lemma latent_batch_None (w : Wrapper) (x y : array) :
  latent_batch w x y = Ok None ->
  method (cfg w) = "DVCCA" /\ both_encoders (cfg w) = false.
Proof.
  unfold latent_batch.
  destruct (String.eqb (method (cfg w)) "DCCAE") eqn:Hm1.
  - intros Hrun. inv_bind Hrun. inv_bind Hrun.
    destruct a0 as [| ? [| ? [| ? [| ? [| ? ?]]]]]; discriminate.
  - destruct (String.eqb (method (cfg w)) "DVCCA") eqn:Hm2; [| discriminate].
    apply String.eqb_eq in Hm2.
    destruct (both_encoders (cfg w)); [| auto].
    intros Hrun. inv_bind Hrun. inv_bind Hrun.
    destruct (private (cfg w)).
    + destruct a0 as [| ? [| ? [| ? [| ? [| ? [| ? [| ? [| ? [| ? [| ? [| ? ?]]]]]]]]]]];
        discriminate.
    + destruct a0 as [| ? [| ? [| ? [| ? [| ? [| ? [| ? ?]]]]]]]; discriminate.
Qed.

Lemma collect_latents_Returned (w : Wrapper) (bs : list (list array))
    (acc : latents) :
  for_each (collect_latents w) bs acc = Ok Returned ->
  acc = Returned
  \/ (method (cfg w) = "DVCCA" /\ both_encoders (cfg w) = false).
Proof.
  revert acc; induction bs as [| batch bs IH]; intros acc; simpl.
  - intros [= ->]. auto.
  - intros Hrun. inv_bind Hrun.
    destruct (IH _ Hrun) as [-> | Hsingle]; [| auto].
    destruct acc as [z_x z_y |]; [| auto]. right.
    simpl in Hstep. inv_bind Hstep. destruct a as [x y].
    inv_bind Hstep. destruct a as [[zx zy] |].
    + inv_bind Hstep. inv_bind Hstep. discriminate.
    + eapply latent_batch_None; eauto.
Qed.

(** The call assigns nothing but, in fit mode, [self.cca]. *)
Lemma predict_corr_frame (w w' : Wrapper) (args : list array) (train : bool)
    (r : option (list R)) :
  predict_corr w args train = Ok (w', r) ->
  w' = w \/ (train = true /\ exists c, w' = set_cca w c).
Proof.
  unfold predict_corr. intros Hrun.
  do 2 inv_bind Hrun.
  destruct a0 as [z_x z_y |]; [| injection Hrun as <- <-; auto].
  destruct train.
  - inv_bind Hrun. destruct a0 as [c [v1 v2]]. inv_bind Hrun.
    injection Hrun as <- <-. right. eauto.
  - do 2 inv_bind Hrun. destruct a1 as [v1 v2]. inv_bind Hrun.
    injection Hrun as <- <-. auto.
Qed.

(** C2 (what the code does instead). The views handed to
    [predict_corr] are centred and then dropped: whenever the centring
    of two argument lists succeeds, the two calls give the same
    outcome, correlations included, and it is the outcome of the call
    with no views at all. The latent codes are those of the stored
    training arrays. *)
Theorem predict_corr_ignores_supplied_views (w : Wrapper)
    (args args' c c' : list array) (train : bool) :
  center_args w args = Ok c ->
  center_args w args' = Ok c' ->
  predict_corr w args train = predict_corr w args' train
  /\ predict_corr w args train = predict_corr w [] train.
Proof.
  intros Hc Hc'. unfold predict_corr.
  rewrite Hc, Hc'. cbn [Py.bind center_args comprehension zip seq length].
  split; reflexivity.
Qed.

Lemma latent_codes_Returned (w : Wrapper) :
  latent_codes w = Ok Returned ->
  method (cfg w) = "DVCCA" /\ both_encoders (cfg w) = false.
Proof.
  unfold latent_codes. intros Hrun. do 5 inv_bind Hrun.
  apply collect_latents_Returned in Hrun as [Hacc | Hsingle];
    [discriminate | exact Hsingle].
Qed.

(** On a wrapper that was never given training data the first
    attribute read fails. *)
Lemma predict_corr_unfitted (w : Wrapper) (args : list array) :
  dataset_means w = None -> dataset_list_train w = None ->
  exists name, predict_corr w args false = Raise (AttributeError name).
Proof.
  intros Hmeans Htrain. unfold predict_corr.
  destruct args as [| arg args].
  - exists "dataset_list_train". cbn. unfold latent_codes.
    rewrite Htrain. reflexivity.
  - exists "dataset_means". unfold center_args, mean_of_view.
    cbn. rewrite Hmeans. reflexivity.
Qed.

(** C9 (as the code has it). While [self.cca] has not been assigned,
    [predict_corr] with [train=False] never returns correlations. On a
    wrapper without training data it raises [AttributeError]; when the
    latent codes were collected it raises [AttributeError] for [cca];
    and the one way it returns at all is the bare [return] (the value
    [None]) of the DVCCA variant with a single encoder. *)
Theorem predict_corr_without_alignment (w : Wrapper) (args : list array) :
  cca w = None ->
  (forall w' r, predict_corr w args false = Ok (w', r) ->
     w' = w /\ r = None
     /\ method (cfg w) = "DVCCA" /\ both_encoders (cfg w) = false)
  /\ (dataset_means w = None -> dataset_list_train w = None ->
      exists name, predict_corr w args false = Raise (AttributeError name))
  /\ (forall c z_x z_y,
        center_args w args = Ok c ->
        latent_codes w = Ok (Collected z_x z_y) ->
        predict_corr w args false = Raise (AttributeError "cca")).
Proof.
  intros Hcca. split_and!.
  - intros w' r Hrun. unfold predict_corr in Hrun. do 2 inv_bind Hrun.
    destruct a0 as [z_x z_y |].
    + rewrite Hcca in Hrun. discriminate.
    + injection Hrun as <- <-.
      apply latent_codes_Returned in Hstep0. tauto.
  - apply predict_corr_unfitted.
  - intros c z_x z_y Hc Hz. unfold predict_corr.
    rewrite Hc, Hz, Hcca. reflexivity.
Qed.

End PredictCorr.

(** ** fit *)

Section Fit.
Context {R Model Snapshot CCA : Type}.
Context `{Scalar R} `{ModelAdapter R Model Snapshot} `{Numerics R CCA}.

Local Abbreviation array := (ndarray R).
Local Abbreviation Wrapper := (Wrapper R Model CCA).
Local Abbreviation TrainingState := (TrainingState R Model Snapshot).
Local Abbreviation DataLoader := (DataLoader R).

Lemma build_model_frame (w w' : Wrapper) (tr : list array) :
  build_model w tr = Ok w' ->
  same_settings w w' /\ cca w' = cca w
  /\ dataset_means w' = dataset_means w.
Proof.
  unfold build_model, same_settings. intros Hrun.
  destruct (String.eqb (method (cfg w)) "DCCAE").
  { do 3 inv_bind Hrun. injection Hrun as <-. cbn. auto. }
  destruct (String.eqb (method (cfg w)) "DVCCA").
  { do 3 inv_bind Hrun. injection Hrun as <-. cbn. auto. }
  destruct (String.eqb (method (cfg w)) "DGCCA").
  { inv_bind Hrun. injection Hrun as <-. cbn. auto. }
  injection Hrun as <-. auto.
Qed.

Lemma fit_train_Ok (shuffle : list nat -> list nat) (fuel : nat)
    (w w1 : Wrapper) (args : list array) (tdl vdl : DataLoader)
    (s0 s : TrainingState) :
  fit_train shuffle fuel w args = Ok (w1, tdl, vdl, s0, s) ->
  same_settings w w1 /\ cca w1 = cca w
  /\ model w1 = Some (ts_model s)
  /\ early_stop s0 = false
  /\ run_epochs (patience (cfg w)) tdl vdl (Z.to_nat (epoch_num (cfg w))) s0
     = Ok s
  /\ dataset_means w1 <> None.
Proof.
  unfold fit_train. intros Hrun. do 8 inv_bind Hrun.
  injection Hrun as <- <- <- <- <-.
  pose proof (process_training_data_frame _ _ _ _ _ Hstep)
    as (Hcfg & _ & Hcca & HX & HY).
  apply process_training_data_Ok in Hstep
    as (first & rest & tr & va & means & bs & _ & _ & _ & Hw).
  apply build_model_frame in Hstep4 as ((Hcfg' & HX' & HY') & Hcca' & Hmeans).
  unfold same_settings. cbn.
  rewrite Hcfg', Hcfg in Hstep6.
  split_and!; try congruence; try reflexivity.
  rewrite Hmeans, Hw. discriminate.
Qed.

Lemma fit_Ok (shuffle : list nat -> list nat) (fuel : nat)
    (w wf : Wrapper) (args : list array) :
  fit shuffle fuel w args = Ok wf ->
  exists w1 tdl vdl s0 s,
    fit_train shuffle fuel w args = Ok (w1, tdl, vdl, s0, s)
    /\ same_settings w wf /\ model wf = model w1
    /\ dataset_means wf = dataset_means w1.
Proof.
  unfold fit. intros Hrun. inv_bind Hrun.
  destruct a as [[[[w1 tdl] vdl] s0] s].
  exists w1, tdl, vdl, s0, s. split; [exact Hstep |].
  apply fit_train_Ok in Hstep as (Hsame & _).
  assert (Hcorr : forall w2 r,
             predict_corr w1 args true = Ok (w2, r) ->
             same_settings w (set_train_correlations w2 r)
             /\ model (set_train_correlations w2 r) = model w1
             /\ dataset_means (set_train_correlations w2 r)
                = dataset_means w1).
  { intros w2 r Hp. apply predict_corr_frame in Hp as [-> | (_ & c & ->)];
      cbn; auto. }
  destruct (String.eqb (method (cfg w1)) "DCCAE").
  { inv_bind Hrun. destruct a as [w2 r]. injection Hrun as <-. auto. }
  destruct (String.eqb (method (cfg w1)) "DVCCA"); [| injection Hrun as <-; auto].
  destruct (both_encoders (cfg w1)); [| injection Hrun as <-; auto].
  inv_bind Hrun. destruct a as [w2 r]. injection Hrun as <-. auto.
Qed.

(** C4. When [fit] returns, the live model of the wrapper is the one
    the epoch loop ended with. If the loop used up its budget without
    the early stop, that model is what the budgeted number of training
    and validation epochs produce one after the other from the initial
    model: no snapshot was loaded into it. A snapshot is loaded only
    where the loop ended in the early stop. *)
Theorem converged_exit_keeps_last_model (shuffle : list nat -> list nat)
    (fuel : nat) (w wf : Wrapper) (args : list array) :
  fit shuffle fuel w args = Ok wf ->
  exists w1 tdl vdl s0 s,
    fit_train shuffle fuel w args = Ok (w1, tdl, vdl, s0, s)
    /\ model wf = Some (ts_model s)
    /\ (early_stop s = false ->
        plain_epochs tdl vdl (Z.to_nat (epoch_num (cfg w))) (ts_model s0)
        = Ok (ts_model s))
    /\ (early_stop s = true ->
        exists m, ts_model s = load_state_dict m (best_model s)).
Proof.
  intros Hfit.
  destruct (fit_Ok _ _ _ _ _ Hfit)
    as (w1 & tdl & vdl & s0 & s & Htrain & _ & Hmodel & _).
  exists w1, tdl, vdl, s0, s.
  destruct (fit_train_Ok _ _ _ _ _ _ _ _ _ Htrain)
    as (_ & _ & Hlive & Hs0 & Hloop & _).
  split_and!; [exact Htrain | congruence | |].
  - intros Hconv. eapply run_epochs_running; eauto.
  - intros Hstop. eapply run_epochs_stopped_restored; eauto.
Qed.

(** C8 (what the code does instead). [fit] stores the training means
    in [dataset_means] and never assigns [X_mean]: on a wrapper that
    was constructed and fitted, [transform_view] with view A supplied
    raises [AttributeError] on its first statement and leaves the
    caller's arrays as they were. *)
Theorem transform_view_after_fit_raises (shuffle : list nat -> list nat)
    (fuel : nat) (c : Config R) (b : Z) (wf : Wrapper) (args : list array)
    (X_new : nat) (Y_new : option nat) (st : gmap nat array) :
  fit shuffle fuel (init c b) args = Ok wf ->
  dataset_means wf <> None
  /\ X_mean wf = None
  /\ transform_view wf (Some X_new) Y_new st
     = (st, Raise (AttributeError "X_mean")).
Proof.
  intros Hfit.
  destruct (fit_Ok _ _ _ _ _ Hfit)
    as (w1 & tdl & vdl & s0 & s & Htrain & Hsame & _ & Hmeans).
  destruct Hsame as (_ & HX & _). cbn in HX.
  apply fit_train_Ok in Htrain as (_ & _ & _ & _ & _ & Hstored).
  split_and!; [congruence | exact HX |].
  unfold transform_view, when_supplied, isub_attr, st_bind, st_lift.
  rewrite HX. reflexivity.
Qed.

End Fit.

(** ** The caller's arrays *)

Section InPlace.
Context {R Model Snapshot CCA : Type}.
Context `{Scalar R} `{ModelAdapter R Model Snapshot} `{Numerics R CCA}.

Local Abbreviation array := (ndarray R).
Local Abbreviation Wrapper := (Wrapper R Model CCA).

Lemma np_isub_same_width (X : array) (m : list R) :
  length m = ncols X -> np_isub X m = Ok (sub_rows X m).
Proof. intros Hlen. unfold np_isub. rewrite Hlen, Nat.eqb_refl. reflexivity. Qed.

Lemma isub_attr_writes (name : string) (m : list R) (l : nat) (X : array)
    (st : gmap nat array) :
  st !! l = Some X -> length m = ncols X ->
  isub_attr name (Some m) l st = (<[l := sub_rows X m]> st, Ok tt).
Proof.
  intros Hl Hlen. unfold isub_attr, st_bind, st_lift, st_read. cbn.
  rewrite Hl, np_isub_same_width by assumption. reflexivity.
Qed.

Lemma when_supplied_isub_writes (name : string) (m : list R) (l : nat)
    (X : array) (st : gmap nat array) :
  st !! l = Some X -> length m = ncols X ->
  when_supplied (Some l) (isub_attr name (Some m)) st
  = (<[l := sub_rows X m]> st, Ok (Some tt)).
Proof.
  intros Hl Hlen. unfold when_supplied. unfold st_bind at 1.
  rewrite (isub_attr_writes _ _ _ _ _ Hl Hlen). reflexivity.
Qed.









End InPlace.

(** ** The wrapper on concrete data *)

Section Concrete.
Import Ref.

(** C1 (what the code does instead). Five samples [0, 0, 0, 0, 10] of
    one feature, taken in order: the training rows are the four zeros
    and the validation row is the ten. The mean stored for later use is
    the training mean 0, but both subsets are centred with the mean of
    all five rows, 2: the training rows become -2 and the validation
    row 8, where the training mean would leave them at 0 and 10. *)
Theorem centering_uses_mean_of_all_rows :
  exists w',
    process_training_data in_order 10 (fresh 1 6 "DCCAE" 2 true) [view5; view5]
    = Ok w'
    /\ partition in_order 5 = ([0; 1; 2; 3], [4])%nat
    /\ dataset_means w' = Some [[0%Q]; [0%Q]]
    /\ mean_axis0 view5 = [2%Q]
    /\ dataset_list_train w'
       = Some [column [-2; -2; -2; -2]; column [-2; -2; -2; -2]]
    /\ dataset_list_val w' = Some [column [8]; column [8]]
    /\ np_sub (column [0; 0; 0; 0]) [0%Q] = Ok (column [0; 0; 0; 0])
    /\ np_sub (column [10]) [0%Q] = Ok (column [10]).
Proof.
  eexists. split; [vm_compute; reflexivity |].
  repeat split; vm_compute; reflexivity.
Qed.

(** C5, the degenerate case: one sample, two latent dimensions. No step
    budget makes [process_training_data] return or raise. *)
Lemma batch_size_loop_never_reports :
  ~ exists fuel,
      process_training_data in_order fuel
        (fresh 2 6 "DCCAE" 2 true) [column [7]; column [7]]
      <> OutOfFuel.
Proof.
  intros (fuel & Hrun). apply Hrun. clear Hrun.
  unfold process_training_data.
  cbn [Py.bind shape0 column rows map length].
  destruct (partition in_order 1) as [train_inds val_inds] eqn:Hpart.
  vm_compute in Hpart. injection Hpart as <- <-.
  match goal with
  | |- context [for_each ?f ?l ?s] =>
      let v := eval vm_compute in (for_each f l s) in
      change (for_each f l s) with v
  end.
  cbn [Py.bind].
  rewrite adjust_batch_size_diverges by (cbn; lia). reflexivity.
Qed.

(** C9, the case that returns: a DVCCA wrapper with a single encoder
    is fitted, which fits no alignment, and [predict_corr] then returns
    [None] without raising. *)
Lemma predict_corr_single_encoder_returns_none :
  exists w,
    fit in_order 10 (fresh 1 6 "DVCCA" 2 false) [view5; view5] = Ok w
    /\ cca w = None
    /\ predict_corr w [view5; view5] false = Ok (w, None).
Proof.
  eexists. split; [vm_compute; reflexivity |].
  split; vm_compute; reflexivity.
Qed.

(** *** The theorems at concrete inputs *)

(** C7 at five rows, shuffled into reverse order. *)
Lemma partition_disjoint_cover_reversed :
  (partition (@rev nat) 5).1 = [4; 3; 2; 1]%nat
  /\ (partition (@rev nat) 5).2 = [0]%nat
  /\ (length (partition (@rev nat) 5).1
      + length (partition (@rev nat) 5).2 = 5)%nat
  /\ (forall i, i ∈ (partition (@rev nat) 5).1 -> i ∉ (partition (@rev nat) 5).2).
Proof.
  destruct (partition_disjoint_cover (@rev nat) 5) as
    (Htrain & Hval & _ & _ & Hsum & _ & _ & Hdisj & _).
  - intros l. symmetry. apply Permutation_rev.
  - split; [exact Htrain |]. split; [exact Hval |].
    split; [exact Hsum | exact Hdisj].
Defined.

(** C6 at five rows, batch size 1 and one latent dimension: the loop
    moves the batch size to 2. *)
Lemma effective_batch_size_five_rows :
  exists w',
    process_training_data in_order 10 (fresh 1 6 "DCCAE" 2 true) [view5; view5]
    = Ok w'
    /\ batch_size w' = 2
    /\ latent_dims (cfg w') <= Z.of_nat (shape0 view5) mod batch_size w'
    /\ 1 <= batch_size w'.
Proof.
  eexists. split; [vm_compute; reflexivity |].
  split; [reflexivity |].
  apply (effective_batch_size_invariant in_order 10
           (fresh 1 6 "DCCAE" 2 true) _ view5 [view5]).
  vm_compute; reflexivity.
Defined.

(** C5 on concrete inputs. Five samples, batch size 1, one latent
    dimension: the loop returns 2. One sample, batch size 2, two latent
    dimensions: the loop neither raises nor returns. *)
Lemma batch_size_loop_five_rows :
  (forall fuel, (5 < fuel)%nat -> adjust_batch_size fuel 5 1 1 = Ok 2)
  /\ (forall fuel e, adjust_batch_size fuel 1 2 2 <> Raise e)
  /\ (forall fuel, adjust_batch_size fuel 1 2 2 = OutOfFuel).
Proof.
  destruct (batch_size_loop_unguarded 5 1 1) as (_ & Hstop & _); [lia |].
  destruct (batch_size_loop_unguarded 1 2 2) as (Hno & _ & Hdiv); [lia |].
  destruct Hstop as (b' & Hret & Hb & Hpass & Hfirst); [lia |].
  assert (Hb' : b' = 2).
  { destruct (Z_lt_le_dec b' 2) as [Hlt | Hge].
    - assert (b' = 1) by lia. subst b'.
      change (5 mod 1) with 0 in Hpass. lia.
    - destruct (Z.eq_dec b' 2) as [-> | Hne]; [reflexivity |].
      assert (H2 : 5 mod 2 < 1) by (apply Hfirst; lia).
      change (5 mod 2) with 1 in H2. lia. }
  subst b'.
  split; [exact Hret |]. split; [exact Hno | apply Hdiv; lia].
Defined.

(** C3 with patience 2 and a budget of 6: the loss of the reference
    network is lowest after the first epoch, so the loop stops in
    epoch 2 and the two weight updates of epoch 0 are restored. *)
Lemma early_stop_in_epoch_two :
  exists s_stop,
    run_epochs 2 train_loader val_loader 6 start = Ok s_stop
    /\ run_epochs 2 train_loader val_loader (0 + Z.to_nat 2 + 1) start
       = Ok s_stop
    /\ early_stop s_stop = true
    /\ ts_model s_stop
       = load_state_dict (mk_net 6 false) (state_dict (mk_net 2 false))
    /\ (forall k, (k <= 0 + Z.to_nat 2)%nat ->
          exists sk, run_epochs 2 train_loader val_loader k start = Ok sk
                     /\ early_stop sk = false)
    /\ length (all_train_loss s_stop)
       = (length (all_train_loss start) + (0 + Z.to_nat 2 + 1))%nat.
Proof.
  apply (early_stop_at_patience 2 train_loader val_loader 6 0 start start
           (mk_net 2 false) (mk_net 6 false) 1%Q 0%Q).
  - reflexivity.
  - reflexivity.
  - vm_compute; reflexivity.
  - reflexivity.
  - lia.
  - change (Z.to_nat 2) with 2%nat.
    apply (non_improving_S _ _ _ 1 _ (mk_net 4 false) _ 1%Q (1 # 25)%Q);
      [vm_compute; reflexivity | reflexivity |].
    apply (non_improving_S _ _ _ 0 _ (mk_net 6 false) _ 1%Q (4 # 25)%Q);
      [vm_compute; reflexivity | reflexivity |].
    apply non_improving_O.
  - simpl; lia.
Defined.

(** C4 with patience 10 and a budget of 3: the loop runs out of budget,
    and the wrapper keeps the model of the last epoch (6 weight
    updates), not the best snapshot (2 updates). *)
Lemma converged_fit_keeps_six_updates :
  exists w1 tdl vdl s0 s,
    fit_train in_order 10 (fresh 1 3 "DCCAE" 10 true) [view5; view5]
    = Ok (w1, tdl, vdl, s0, s)
    /\ model (fitted (fresh 1 3 "DCCAE" 10 true)) = Some (ts_model s)
    /\ (early_stop s = false ->
        plain_epochs tdl vdl
          (Z.to_nat (epoch_num (cfg (fresh 1 3 "DCCAE" 10 true))))
          (ts_model s0)
        = Ok (ts_model s))
    /\ (early_stop s = true ->
        exists m, ts_model s = load_state_dict m (best_model s)).
Proof.
  apply (converged_exit_keeps_last_model in_order 10
           (fresh 1 3 "DCCAE" 10 true)
           (fitted (fresh 1 3 "DCCAE" 10 true)) [view5; view5]).
  vm_compute; reflexivity.
Defined.

(** C2 on a fitted wrapper: the correlations reported for two other
    views are those reported for the training views. *)
Lemma predict_corr_same_for_other_views :
  predict_corr (fitted (fresh 1 6 "DCCAE" 2 true)) [view5; view5] false
  = predict_corr (fitted (fresh 1 6 "DCCAE" 2 true))
      [column [1; 2; 3]; column [4; 5; 6]] false
  /\ predict_corr (fitted (fresh 1 6 "DCCAE" 2 true)) [view5; view5] false
     = predict_corr (fitted (fresh 1 6 "DCCAE" 2 true)) [] false.
Proof.
  apply (predict_corr_ignores_supplied_views
           (fitted (fresh 1 6 "DCCAE" 2 true)) [view5; view5]
           [column [1; 2; 3]; column [4; 5; 6]]
           [view5; view5] [column [1; 2; 3]; column [4; 5; 6]] false);
    vm_compute; reflexivity.
Defined.

(** C8 on a fitted wrapper and a caller's array. *)
Lemma transform_view_raises_on_fitted :
  dataset_means (fitted (fresh 1 6 "DCCAE" 2 true)) <> None
  /\ X_mean (fitted (fresh 1 6 "DCCAE" 2 true)) = None
  /\ transform_view (fitted (fresh 1 6 "DCCAE" 2 true)) (Some 0%nat) None
       two_arrays
     = (two_arrays, Raise (AttributeError "X_mean")).
Proof.
  apply (transform_view_after_fit_raises in_order 10
           (config 1 6 "DCCAE" 2 true) 1
           (fitted (fresh 1 6 "DCCAE" 2 true)) [view5; view5]).
  vm_compute; reflexivity.
Defined.

(** C9 on a wrapper that was never fitted. *)
Lemma predict_corr_on_fresh_wrapper :
  (forall w' r,
     predict_corr (fresh 1 6 "DCCAE" 2 true) [view5; view5] false = Ok (w', r) ->
     w' = fresh 1 6 "DCCAE" 2 true /\ r = None
     /\ method (cfg (fresh 1 6 "DCCAE" 2 true)) = "DVCCA"
     /\ both_encoders (cfg (fresh 1 6 "DCCAE" 2 true)) = false)
  /\ (dataset_means (fresh 1 6 "DCCAE" 2 true) = None ->
      dataset_list_train (fresh 1 6 "DCCAE" 2 true) = None ->
      exists name,
        predict_corr (fresh 1 6 "DCCAE" 2 true) [view5; view5] false
        = Raise (AttributeError name))
  /\ (forall c z_x z_y,
        center_args (fresh 1 6 "DCCAE" 2 true) [view5; view5] = Ok c ->
        latent_codes (fresh 1 6 "DCCAE" 2 true) = Ok (Collected z_x z_y) ->
        predict_corr (fresh 1 6 "DCCAE" 2 true) [view5; view5] false
        = Raise (AttributeError "cca")).
Proof.
  apply (predict_corr_without_alignment (fresh 1 6 "DCCAE" 2 true)
           [view5; view5]).
  reflexivity.
Defined.



(** The converged wrapper of C4 holds the model after 6 updates while
    the best snapshot of its loop was taken after 2. *)
Example converged_model_is_not_best_snapshot :
  exists w1 tdl vdl s0 s,
    fit_train in_order 10 (fresh 1 3 "DCCAE" 10 true) [view5; view5]
    = Ok (w1, tdl, vdl, s0, s)
    /\ early_stop s = false
    /\ state_dict (ts_model s) = 6 /\ best_model s = 2.
Proof.
  eexists _, _, _, _, _. split; [vm_compute; reflexivity |].
  repeat split.
Qed.

End Concrete.

(** * Further properties *)

(** ** Arrays *)

Section Arrays.
Context {R : Type} `{Scalar R}.

Local Abbreviation array := (ndarray R).

Lemma comprehension_rows_Ok (X : array) (inds : list nat) :
  Forall (fun i => (i < shape0 X)%nat) inds ->
  exists rs,
    comprehension (fun i => match rows X !! i with
                            | Some r => Ok r
                            | None => Raise IndexError
                            end) inds = Ok rs
    /\ length rs = length inds
    /\ Forall (fun r => r ∈ rows X) rs.
Proof.
  induction 1 as [| i inds Hi _ (rs & Hrs & Hlen & Hin)]; simpl.
  - exists []. auto.
  - destruct (lookup_lt_is_Some_2 (rows X) i Hi) as (r & Hr).
    rewrite Hr, Hrs. cbn. exists (r :: rs). split_and!; auto.
    + simpl. congruence.
    + constructor; [| exact Hin]. eapply list_elem_of_lookup_2; eauto.
Qed.

Lemma take_rows_Ok (X : array) (inds : list nat) :
  Forall (fun i => (i < shape0 X)%nat) inds ->
  exists sel,
    take_rows X inds = Ok sel
    /\ ncols sel = ncols X /\ shape0 sel = length inds
    /\ Forall (fun r => r ∈ rows X) (rows sel).
Proof.
  intros Hin. destruct (comprehension_rows_Ok X inds Hin) as (rs & Hrs & Hlen & Hmem).
  unfold take_rows. rewrite Hrs. cbn. eexists. split; [reflexivity |].
  cbn. auto.
Qed.

Lemma take_rows_out_of_range (X : array) (inds : list nat) (i : nat) :
  i ∈ inds -> (shape0 X <= i)%nat -> take_rows X inds = Raise IndexError.
Proof.
  intros Hi Hout. unfold take_rows.
  enough (Hc : comprehension (fun i => match rows X !! i with
                                        | Some r => Ok r
                                        | None => Raise IndexError
                                        end) inds = Raise IndexError)
    by (rewrite Hc; reflexivity).
  induction inds as [| j inds IH]; [inversion Hi |]. simpl.
  destruct (rows X !! j) as [r |] eqn:Hj; [| reflexivity]. cbn.
  inversion Hi; subst.
  - apply lookup_lt_Some in Hj. unfold shape0 in Hout. lia.
  - rewrite IH by assumption. reflexivity.
Qed.

Lemma take_rows_shape (X sel : array) (inds : list nat) :
  take_rows X inds = Ok sel -> shape0 sel = length inds.
Proof.
  unfold take_rows. intros Hrun. inv_bind Hrun. injection Hrun as <-.
  unfold shape0. cbn. clear -Hstep. revert a Hstep.
  induction inds as [| i inds IH]; intros rs; simpl.
  - intros [= <-]. reflexivity.
  - intros Hrun. inv_bind Hrun. inv_bind Hrun. injection Hrun as <-.
    simpl. f_equal. apply IH. exact Hstep0.
Qed.

Lemma np_sub_shape (X D : array) (m : list R) :
  np_sub X m = Ok D -> shape0 D = shape0 X.
Proof.
  unfold np_sub, sub_rows, shape0. intros Hrun.
  repeat case_match; try discriminate; injection Hrun as <-; cbn;
    apply length_map.
Qed.

Lemma fold_zip_with_length (f : R -> R -> R) (rs : list (list R))
    (acc : list R) (n : nat) :
  length acc = n -> Forall (fun r => length r = n) rs ->
  length (fold_left (zip_with f) rs acc) = n.
Proof.
  intros Hacc Hrs. revert acc Hacc.
  induction Hrs as [| r rs Hr _ IH]; intros acc Hacc; simpl; [exact Hacc |].
  apply IH. rewrite length_zip_with. lia.
Qed.

(** The mean of a rectangular array has one entry per column. *)
Lemma mean_axis0_length (X : array) :
  rectangular X -> length (mean_axis0 X) = ncols X.
Proof.
  intros Hrect. unfold mean_axis0, sum_axis0. rewrite length_map.
  apply fold_zip_with_length; [apply repeat_length | exact Hrect].
Qed.

Lemma np_sub_same_width (X : array) (m : list R) :
  length m = ncols X -> np_sub X m = Ok (sub_rows X m).
Proof. intros Hlen. unfold np_sub. rewrite Hlen, Nat.eqb_refl. reflexivity. Qed.

End Arrays.

(** ** process_training_data, further *)

Section TrainingData.
Context {R Model Snapshot CCA : Type}.
Context `{Scalar R} `{ModelAdapter R Model Snapshot} `{Numerics R CCA}.

Local Abbreviation array := (ndarray R).
Local Abbreviation Wrapper := (Wrapper R Model CCA).

Lemma partition_lengths (shuffle : list nat -> list nat) (S : nat) :
  (forall l, shuffle l ≡ₚ l) ->
  length (partition shuffle S).1 = split_point S
  /\ length (partition shuffle S).2 = (S - split_point S)%nat.
Proof.
  intros Hperm. unfold partition; cbn [fst snd].
  assert (Hlen : length (shuffle (seq 0 S)) = S)
    by (rewrite (Permutation_length (Hperm _)); apply length_seq).
  pose proof (split_point_le S).
  rewrite length_take, length_drop. lia.
Qed.

Lemma partition_elems (shuffle : list nat -> list nat) (S i : nat) :
  (forall l, shuffle l ≡ₚ l) ->
  (i < S)%nat <-> i ∈ (partition shuffle S).1 \/ i ∈ (partition shuffle S).2.
Proof.
  intros Hperm. unfold partition; cbn [fst snd].
  rewrite <- elem_of_app, take_drop, (Hperm _), elem_of_seq. lia.
Qed.

Lemma center_view_Ok (train_inds val_inds : list nat)
    (tr va tr' va' : list array) (means means' : list (list R)) (X : array) :
  center_view train_inds val_inds (tr, va, means) X = Ok (tr', va', means') ->
  exists sel c sel_val v,
    take_rows X train_inds = Ok sel
    /\ np_sub sel (mean_axis0 X) = Ok c
    /\ take_rows X val_inds = Ok sel_val
    /\ np_sub sel_val (mean_axis0 X) = Ok v
    /\ tr' = tr ++ [c] /\ va' = va ++ [v]
    /\ means' = means ++ [mean_axis0 sel].
Proof.
  unfold center_view. intros Hrun.
  inv_bind Hrun. inv_bind Hrun. inv_bind Hrun. inv_bind Hrun. inv_bind Hrun.
  injection Hrun as <- <- <-.
  rewrite Hstep in Hstep0. injection Hstep0 as <-.
  eauto 12.
Qed.

Lemma center_view_succeeds (train_inds val_inds : list nat)
    (tr va : list array) (means : list (list R)) (X : array) :
  rectangular X ->
  Forall (fun i => (i < shape0 X)%nat) train_inds ->
  Forall (fun i => (i < shape0 X)%nat) val_inds ->
  exists c v m,
    center_view train_inds val_inds (tr, va, means) X
    = Ok (tr ++ [c], va ++ [v], means ++ [m]).
Proof.
  intros Hrect Htr Hva.
  destruct (take_rows_Ok X train_inds Htr) as (sel & Hsel & Hcols & _).
  destruct (take_rows_Ok X val_inds Hva) as (selv & Hselv & Hcolsv & _).
  pose proof (mean_axis0_length X Hrect) as Hmean.
  unfold center_view. rewrite Hsel. cbn [Py.bind].
  rewrite (np_sub_same_width sel) by congruence. cbn [Py.bind].
  rewrite Hselv. cbn [Py.bind].
  rewrite (np_sub_same_width selv) by congruence. cbn [Py.bind].
  eauto.
Qed.

(** What the loop over the views appends, view by view. *)
Lemma center_views_Ok (train_inds val_inds : list nat) (args : list array)
    (tr0 va0 tr va : list array) (me0 me : list (list R)) :
  for_each (center_view train_inds val_inds) args (tr0, va0, me0)
  = Ok (tr, va, me) ->
  exists tr1 va1 me1,
    tr = tr0 ++ tr1 /\ va = va0 ++ va1 /\ me = me0 ++ me1
    /\ Forall2 (fun X T => shape0 T = length train_inds) args tr1
    /\ Forall2 (fun X V => shape0 V = length val_inds) args va1
    /\ Forall2 (fun X m => exists sel, take_rows X train_inds = Ok sel
                                       /\ m = mean_axis0 sel) args me1.
Proof.
  revert tr0 va0 me0; induction args as [| X args IH]; intros tr0 va0 me0;
    simpl.
  - intros [= <- <- <-]. exists [], [], [].
    rewrite !app_nil_r. split_and!; auto; constructor.
  - intros Hrun. inv_bind Hrun. destruct a as [[tr' va'] me'].
    apply center_view_Ok in Hstep
      as (sel & c & selv & v & Hsel & Hc & Hselv & Hv & -> & -> & ->).
    apply IH in Hrun as (tr1 & va1 & me1 & -> & -> & -> & Htr & Hva & Hme).
    exists (c :: tr1), (v :: va1), (mean_axis0 sel :: me1).
    rewrite <- !app_assoc. split_and!; try reflexivity; constructor; auto.
    + rewrite (np_sub_shape _ _ _ Hc). eapply take_rows_shape; eauto.
    + rewrite (np_sub_shape _ _ _ Hv). eapply take_rows_shape; eauto.
    + eauto.
Qed.

Lemma center_views_succeed (train_inds val_inds : list nat)
    (args : list array) (tr0 va0 : list array) (me0 : list (list R)) :
  Forall rectangular args ->
  Forall (fun X => Forall (fun i => (i < shape0 X)%nat) train_inds
                   /\ Forall (fun i => (i < shape0 X)%nat) val_inds) args ->
  exists tr va me,
    for_each (center_view train_inds val_inds) args (tr0, va0, me0)
    = Ok (tr, va, me).
Proof.
  intros Hrect Hin. revert tr0 va0 me0.
  induction args as [| X args IH]; intros tr0 va0 me0; cbn [for_each];
    [eauto |].
  inversion Hrect as [| ? ? HX Hrest]; subst.
  inversion Hin as [| ? ? [Htr Hva] Hin']; subst.
  destruct (center_view_succeeds train_inds val_inds tr0 va0 me0 X HX Htr Hva)
    as (c & v & m & Hc).
  rewrite Hc. cbn [Py.bind]. apply IH; assumption.
Qed.

Lemma for_each_app_bind {A S} (body : S -> A -> result S)
    (l1 l2 : list A) (s : S) :
  for_each body (l1 ++ l2) s = Py.bind (for_each body l1 s) (for_each body l2).
Proof.
  revert s; induction l1 as [| x l1 IH]; intros s; simpl; [reflexivity |].
  destruct (body s x); simpl; auto.
Qed.

Lemma take_rows_cases (X : array) (inds : list nat) :
  (exists sel, take_rows X inds = Ok sel /\ ncols sel = ncols X)
  \/ take_rows X inds = Raise IndexError.
Proof.
  destruct (decide (Forall (fun i => (i < shape0 X)%nat) inds)) as [Hin | Hout].
  - left. destruct (take_rows_Ok X inds Hin) as (sel & Hsel & Hcols & _). eauto.
  - right. apply not_Forall_Exists in Hout; [| intros i; apply _].
    apply Exists_exists in Hout as (i & Hi & Hge). cbn in Hge.
    apply (take_rows_out_of_range X inds i); [exact Hi | lia].
Qed.

(** X1. On rectangular views that all have at least as many rows as
    the first, with a configured batch size of at least 1 and no more
    latent dimensions than samples, [process_training_data] returns,
    whatever permutation the shuffle draws. *)
Theorem process_training_data_succeeds (shuffle : list nat -> list nat)
    (w : Wrapper) (first : array) (rest : list array) :
  (forall l, shuffle l ≡ₚ l) ->
  Forall rectangular (first :: rest) ->
  Forall (fun X => (shape0 first <= shape0 X)%nat) rest ->
  1 <= batch_size w ->
  latent_dims (cfg w) <= Z.of_nat (shape0 first) ->
  exists w',
    forall fuel,
      (Z.to_nat (Z.of_nat (shape0 first) + 1 - batch_size w) < fuel)%nat ->
      process_training_data shuffle fuel w (first :: rest) = Ok w'.
Proof.
  intros Hperm Hrect Hrows Hb HL.
  assert (Hin : Forall (fun X =>
              Forall (fun i => (i < shape0 X)%nat) (partition shuffle (shape0 first)).1
              /\ Forall (fun i => (i < shape0 X)%nat) (partition shuffle (shape0 first)).2)
            (first :: rest)).
  { assert (Hall : Forall (fun X => (shape0 first <= shape0 X)%nat) (first :: rest))
      by (constructor; [lia | exact Hrows]).
    eapply Forall_impl; [exact Hall |]. intros X HX. cbn beta in HX |- *.
    split; apply Forall_forall; intros i Hi;
      pose proof (proj2 (partition_elems shuffle (shape0 first) i Hperm)) as Hlt;
      [specialize (Hlt (or_introl Hi)) | specialize (Hlt (or_intror Hi))]; lia. }
  destruct (center_views_succeed _ _ (first :: rest) [] [] [] Hrect Hin)
    as (tr & va & me & Hloop).
  destruct (adjust_batch_size_terminates (Z.of_nat (shape0 first)) (batch_size w)
              (latent_dims (cfg w)) Hb HL ltac:(lia)) as (b' & Hrun & _).
  exists (set_training_data w tr va me b'). intros fuel Hfuel.
  unfold process_training_data. cbn [Py.bind].
  destruct (partition shuffle (shape0 first)) as [train_inds val_inds].
  cbn [fst snd] in Hloop. rewrite Hloop. cbn [Py.bind].
  assert (Hmore : (Datatypes.S (Z.to_nat (Z.of_nat (shape0 first) + 1
                                           - batch_size w)) <= fuel)%nat)
    by lia.
  rewrite (adjust_batch_size_more_fuel _ fuel _ _ _ _ Hmore Hrun).
  reflexivity.
Qed.

(** X2. When [process_training_data] returns, the wrapper holds one
    training array, one validation array and one mean per view, in the
    order of the views; every training array has round(0.8 * S) rows,
    every validation array the other S - round(0.8 * S), and the mean
    stored for a view is the column mean of its training rows. Whatever
    the three attributes held before is replaced. *)
Theorem training_data_shapes (shuffle : list nat -> list nat) (fuel : nat)
    (w w' : Wrapper) (first : array) (rest : list array) :
  (forall l, shuffle l ≡ₚ l) ->
  process_training_data shuffle fuel w (first :: rest) = Ok w' ->
  exists tr va means,
    dataset_list_train w' = Some tr
    /\ dataset_list_val w' = Some va
    /\ dataset_means w' = Some means
    /\ Forall2 (fun X T => shape0 T = split_point (shape0 first))
         (first :: rest) tr
    /\ Forall2 (fun X V =>
                  shape0 V = (shape0 first - split_point (shape0 first))%nat)
         (first :: rest) va
    /\ Forall2 (fun X m =>
                  exists sel,
                    take_rows X (partition shuffle (shape0 first)).1 = Ok sel
                    /\ m = mean_axis0 sel)
         (first :: rest) means.
Proof.
  intros Hperm Hrun.
  apply process_training_data_Ok in Hrun
    as (first' & rest' & tr & va & means & b & Hargs & Hloop & _ & ->).
  injection Hargs as <- <-.
  apply center_views_Ok in Hloop
    as (tr1 & va1 & me1 & -> & -> & -> & Htr & Hva & Hme).
  destruct (partition_lengths shuffle (shape0 first) Hperm) as (Hl1 & Hl2).
  rewrite Hl1 in Htr. rewrite Hl2 in Hva.
  exists tr1, va1, me1. cbn. auto 10.
Qed.

(** X3. A view with fewer rows than the first one makes
    [process_training_data] raise [IndexError], before the batch-size
    loop is reached: some shuffled index lies past its end. *)
Theorem short_view_raises_IndexError (shuffle : list nat -> list nat)
    (fuel : nat) (w : Wrapper) (first Y : array) (pre post : list array) :
  (forall l, shuffle l ≡ₚ l) ->
  Forall rectangular (first :: pre) ->
  Forall (fun X => (shape0 first <= shape0 X)%nat) pre ->
  rectangular Y ->
  (shape0 Y < shape0 first)%nat ->
  process_training_data shuffle fuel w (first :: pre ++ Y :: post)
  = Raise IndexError.
Proof.
  intros Hperm Hrect Hrows HY Hshort.
  assert (Hin : Forall (fun X =>
              Forall (fun i => (i < shape0 X)%nat) (partition shuffle (shape0 first)).1
              /\ Forall (fun i => (i < shape0 X)%nat) (partition shuffle (shape0 first)).2)
            (first :: pre)).
  { assert (Hall : Forall (fun X => (shape0 first <= shape0 X)%nat) (first :: pre))
      by (constructor; [lia | exact Hrows]).
    eapply Forall_impl; [exact Hall |]. intros X HX. cbn beta in HX |- *.
    split; apply Forall_forall; intros i Hi;
      pose proof (proj2 (partition_elems shuffle (shape0 first) i Hperm)) as Hlt;
      [specialize (Hlt (or_introl Hi)) | specialize (Hlt (or_intror Hi))]; lia. }
  destruct (center_views_succeed _ _ (first :: pre) [] [] [] Hrect Hin)
    as (tr & va & me & Hloop).
  pose proof (proj1 (partition_elems shuffle (shape0 first) (shape0 Y) Hperm) Hshort)
    as Hwhere.
  unfold process_training_data. cbn [Py.bind].
  destruct (partition shuffle (shape0 first)) as [train_inds val_inds].
  cbn [fst snd] in *.
  change (first :: pre ++ Y :: post) with ((first :: pre) ++ Y :: post).
  rewrite for_each_app_bind, Hloop. cbn [Py.bind for_each].
  assert (Hview : center_view train_inds val_inds (tr, va, me) Y
                  = Raise IndexError).
  { unfold center_view.
    destruct (take_rows_cases Y train_inds) as [(sel & Hsel & Hcols) | Hraise];
      [| rewrite Hraise; reflexivity].
    destruct Hwhere as [Htrain | Hval].
    { rewrite (take_rows_out_of_range Y train_inds (shape0 Y)) in Hsel;
        [discriminate | exact Htrain | lia]. }
    rewrite Hsel. cbn [Py.bind].
    rewrite (np_sub_same_width sel)
      by (rewrite Hcols; apply mean_axis0_length; exact HY).
    cbn [Py.bind].
    rewrite (take_rows_out_of_range Y val_inds (shape0 Y)); [| exact Hval | lia].
    reflexivity. }
  rewrite Hview. reflexivity.
Qed.

(** X4. The validation subset is empty exactly when there are at most
    two samples, and the training subset exactly when there is none. *)
Theorem validation_subset_empty_iff (shuffle : list nat -> list nat) (S : nat) :
  (forall l, shuffle l ≡ₚ l) ->
  ((partition shuffle S).2 = [] <-> (S <= 2)%nat)
  /\ ((partition shuffle S).1 = [] <-> S = O).
Proof.
  intros Hperm.
  destruct (partition_lengths shuffle S Hperm) as (Hl1 & Hl2).
  pose proof (split_point_nearest S) as Hnear.
  pose proof (split_point_le S) as Hle.
  split; split; intros Hempty.
  - rewrite Hempty in Hl2. simpl in Hl2. lia.
  - apply length_zero_iff_nil. lia.
  - rewrite Hempty in Hl1. simpl in Hl1. lia.
  - apply length_zero_iff_nil. lia.
Qed.

End TrainingData.

(** ** The batch-size loop, further *)

Section BatchSize.
Context {R Model Snapshot CCA : Type}.
Context `{Scalar R} `{ModelAdapter R Model Snapshot} `{Numerics R CCA}.

Local Abbreviation array := (ndarray R).
Local Abbreviation Wrapper := (Wrapper R Model CCA).

(** X5. A configured batch size of 0 or below, with at least one latent
    dimension, ends in [ZeroDivisionError]: every negative divisor
    gives a remainder of at most 0, so the loop counts up to 0 and
    divides by it. *)
Theorem nonpositive_batch_size_raises (fuel : nat) (S b L : Z) :
  b <= 0 -> 0 < L -> (Z.to_nat (- b) < fuel)%nat ->
  adjust_batch_size fuel S b L = Raise ZeroDivisionError.
Proof.
  revert b; induction fuel as [| fuel IH]; intros b Hb HL Hfuel; [lia |].
  simpl. destruct (Z.eqb_spec b 0) as [-> | Hnz]; [reflexivity |].
  pose proof (Z.mod_neg_bound S b ltac:(lia)) as Hmod.
  destruct (Z.ltb_spec (S mod b) L); [| lia].
  apply IH; lia.
Qed.

(** X6. From a batch size of at least 1 the loop returns for some step
    budget exactly when there are at least as many samples as latent
    dimensions. With fewer samples it runs forever: whatever the step
    budget, it has neither returned nor raised. *)
Theorem batch_size_loop_returns_iff (S b L : Z) :
  1 <= b -> 0 <= S ->
  ((exists fuel b', adjust_batch_size fuel S b L = Ok b') <-> L <= S)
  /\ (S < L -> forall fuel, adjust_batch_size fuel S b L = OutOfFuel).
Proof.
  intros Hb HS. split; [split |].
  - intros (fuel & b' & Hrun).
    destruct (Z.le_gt_cases L S) as [Hle | Hgt]; [exact Hle |].
    rewrite adjust_batch_size_diverges in Hrun by lia. discriminate.
  - intros HL.
    destruct (adjust_batch_size_terminates S b L Hb HL HS) as (b' & Hrun & _).
    eauto.
  - intros Hlt fuel. apply adjust_batch_size_diverges; lia.
Qed.

(** X7. Fitting again on data with the same number of samples leaves
    the batch size where the first call moved it: the adjusted batch
    size already passes the loop's test. *)
Theorem batch_size_adjusted_once (shuffle shuffle' : list nat -> list nat)
    (fuel fuel' : nat) (w w1 w2 : Wrapper) (first first' : array)
    (rest rest' : list array) :
  process_training_data shuffle fuel w (first :: rest) = Ok w1 ->
  process_training_data shuffle' fuel' w1 (first' :: rest') = Ok w2 ->
  shape0 first' = shape0 first ->
  batch_size w2 = batch_size w1.
Proof.
  intros Hrun1 Hrun2 Hsame.
  pose proof (process_training_data_frame _ _ _ _ _ Hrun1) as (Hcfg & _).
  apply process_training_data_Ok in Hrun1
    as (f1 & r1 & tr1 & va1 & me1 & b1 & Hargs1 & _ & Hloop1 & ->).
  apply process_training_data_Ok in Hrun2
    as (f2 & r2 & tr2 & va2 & me2 & b2 & Hargs2 & _ & Hloop2 & ->).
  injection Hargs1 as <- <-. injection Hargs2 as <- <-.
  cbn in *. rewrite Hsame in Hloop2.
  apply adjust_batch_size_sound in Hloop1 as (_ & Hnz & Hmod & _).
  destruct fuel' as [| fuel']; [discriminate |]. simpl in Hloop2.
  destruct (Z.eqb_spec b1 0); [contradiction |].
  destruct (Z.ltb_spec (Z.of_nat (shape0 first) mod b1) (latent_dims (cfg w)));
    [lia |].
  congruence.
Qed.

End BatchSize.

(** ** The epoch loop, further *)

Section EpochLoopFurther.
Context {R Model Snapshot CCA : Type}.
Context `{Scalar R} `{ModelAdapter R Model Snapshot} `{Numerics R CCA}.

Local Abbreviation array := (ndarray R).
Local Abbreviation Wrapper := (Wrapper R Model CCA).
Local Abbreviation TrainingState := (TrainingState R Model Snapshot).
Local Abbreviation DataLoader := (DataLoader R).

Lemma epoch_body_counter (pat : Z) (tdl vdl : DataLoader)
    (s s' : TrainingState) :
  epoch_body pat tdl vdl s = Ok s' ->
  (0 <= epochs_no_improve s
   /\ (early_stop s = true -> epochs_no_improve s = pat /\ 0 < pat)) ->
  (0 <= epochs_no_improve s'
   /\ (early_stop s' = true -> epochs_no_improve s' = pat /\ 0 < pat))
  /\ ((early_stop s = false -> epochs_no_improve s < pat) ->
      (early_stop s' = false -> epochs_no_improve s' < pat)).
Proof.
  intros Hbody (Hpos & Hstop).
  destruct (early_stop s) eqn:Hs.
  - rewrite epoch_body_stopped in Hbody by assumption. injection Hbody as <-.
    rewrite Hs. split; [auto | intros _ [=]].
  - destruct (epoch_body_running pat tdl vdl s s' Hs Hbody)
      as (m & tl & vl & _ & _ & _ & Hcases).
    destruct Hcases as [Hc | [Hc | Hc]].
    + destruct Hc as (_ & _ & _ & _ & Hcnt & Hrun). rewrite Hcnt, Hrun.
      split; [split; [lia | intros [=]] |].
      intros Hlt _. specialize (Hlt eq_refl). lia.
    + destruct Hc as (_ & Hne & _ & _ & _ & Hcnt & Hrun). rewrite Hcnt, Hrun.
      split; [split; [lia | intros [=]] |].
      intros Hlt _. specialize (Hlt eq_refl). lia.
    + destruct Hc as (_ & Heq & _ & _ & _ & Hcnt & Hstopped).
      rewrite Hcnt, Hstopped.
      split; [split; [lia | intros _; lia] | intros _ [=]].
Qed.

(** X8. The counter of epochs without improvement, from a running state
    where it is not negative: it never becomes negative; the loop is
    stopped only with the counter equal to a positive patience, so a
    patience of 0 or below never stops it; and while the loop runs
    under a patience the counter began below, it stays below it. *)
Theorem patience_counter_invariant (pat : Z) (tdl vdl : DataLoader)
    (n : nat) (s s' : TrainingState) :
  run_epochs pat tdl vdl n s = Ok s' ->
  early_stop s = false ->
  0 <= epochs_no_improve s ->
  0 <= epochs_no_improve s'
  /\ (early_stop s' = true -> epochs_no_improve s' = pat /\ 0 < pat)
  /\ (pat <= 0 -> early_stop s' = false)
  /\ (epochs_no_improve s < pat -> early_stop s' = false ->
      epochs_no_improve s' < pat).
Proof.
  intros Hrun Hs Hpos.
  assert (Hinv : (0 <= epochs_no_improve s'
                  /\ (early_stop s' = true ->
                      epochs_no_improve s' = pat /\ 0 < pat))
                 /\ ((early_stop s = false -> epochs_no_improve s < pat) ->
                     (early_stop s' = false -> epochs_no_improve s' < pat))).
  { assert (Hinit : 0 <= epochs_no_improve s
                    /\ (early_stop s = true ->
                        epochs_no_improve s = pat /\ 0 < pat))
      by (split; [exact Hpos | rewrite Hs; intros [=]]).
    clear Hs Hpos. revert s Hrun Hinit.
    induction n as [| n IH]; intros s Hrun Hinit; simpl in Hrun.
    - injection Hrun as <-. auto.
    - inv_bind Hrun.
      destruct (epoch_body_counter pat tdl vdl s a Hstep Hinit) as (Hinv1 & Hlt1).
      destruct (IH a Hrun Hinv1) as (Hinv' & Hlt'). auto. }
  destruct Hinv as ((Hpos' & Hstop') & Hlt').
  split_and!; auto.
  intros Hpat. destruct (early_stop s') eqn:Hs'; [| reflexivity].
  destruct (Hstop' eq_refl). lia.
Qed.

Lemma epoch_body_histories (pat : Z) (tdl vdl : DataLoader)
    (s s' : TrainingState) :
  epoch_body pat tdl vdl s = Ok s' ->
  exists tls vls,
    all_train_loss s' = all_train_loss s ++ tls
    /\ all_val_loss s' = all_val_loss s ++ vls
    /\ length tls = length vls /\ (length tls <= 1)%nat.
Proof.
  intros Hbody. destruct (early_stop s) eqn:Hs.
  - rewrite epoch_body_stopped in Hbody by assumption. injection Hbody as <-.
    exists [], []. rewrite !app_nil_r. auto.
  - destruct (epoch_body_running pat tdl vdl s s' Hs Hbody)
      as (m & tl & vl & _ & Htl & Hvl & _).
    exists [tl], [vl]. auto.
Qed.

(** X9. The two loss histories only grow, by appending, and in step:
    a run of [n] turns of the loop appends the same number of entries
    to both, at most [n]. *)
Theorem loss_histories_grow_together (pat : Z) (tdl vdl : DataLoader)
    (n : nat) (s s' : TrainingState) :
  run_epochs pat tdl vdl n s = Ok s' ->
  exists tls vls,
    all_train_loss s' = all_train_loss s ++ tls
    /\ all_val_loss s' = all_val_loss s ++ vls
    /\ length tls = length vls /\ (length tls <= n)%nat.
Proof.
  revert s; induction n as [| n IH]; intros s Hrun; simpl in Hrun.
  - injection Hrun as <-. exists [], []. rewrite !app_nil_r. auto.
  - inv_bind Hrun.
    destruct (epoch_body_histories _ _ _ _ _ Hstep)
      as (t1 & v1 & Ht1 & Hv1 & Hlen1 & Hle1).
    destruct (IH a Hrun) as (t2 & v2 & Ht2 & Hv2 & Hlen2 & Hle2).
    exists (t1 ++ t2), (v1 ++ v2).
    rewrite Ht2, Hv2, Ht1, Hv1, <- !app_assoc, !length_app.
    split_and!; auto; lia.
Qed.

(** X10. The best loss starts at [latent_dims]. If the first [patience]
    epochs all end with a validation loss that is not below it, the
    loop stops after them and loads the snapshot taken before any
    training: [fit] ends with the untrained parameters. *)
Theorem never_below_sentinel_restores_untrained (w : Wrapper) (m m_end : Model)
    (tdl vdl : DataLoader) (N : nat) :
  0 < patience (cfg w) ->
  non_improving tdl vdl (s_of_Z (latent_dims (cfg w)))
    (Z.to_nat (patience (cfg w))) (double_to_device m) m_end ->
  (Z.to_nat (patience (cfg w)) <= N)%nat ->
  exists s,
    run_epochs (patience (cfg w)) tdl vdl N (initial_state w m) = Ok s
    /\ early_stop s = true
    /\ ts_model s = load_state_dict m_end (state_dict m)
    /\ length (all_train_loss s) = Z.to_nat (patience (cfg w)).
Proof.
  intros Hpat Hstall HN.
  destruct (stall_until_patience (patience (cfg w)) tdl vdl
              (Z.to_nat (patience (cfg w))) (initial_state w m) m_end)
    as (s & Hrun & Hstop & Hmodel & _ & Hlen & _);
    [reflexivity | lia | cbn; lia | exact Hstall |].
  exists s. split_and!; auto.
  replace N with (Z.to_nat (patience (cfg w))
                  + (N - Z.to_nat (patience (cfg w))))%nat by lia.
  rewrite run_epochs_add, Hrun. cbn [Py.bind].
  apply run_epochs_stopped. exact Hstop.
Qed.

End EpochLoopFurther.

(** ** What fit needs of its input *)

Section FitInput.
Context {R Model Snapshot CCA : Type}.
Context `{Scalar R} `{ModelAdapter R Model Snapshot} `{Numerics R CCA}.

Local Abbreviation array := (ndarray R).
Local Abbreviation Wrapper := (Wrapper R Model CCA).
Local Abbreviation TrainingState := (TrainingState R Model Snapshot).
Local Abbreviation DataLoader := (DataLoader R).

Lemma make_DataLoader_dataset (views : list array) (b : Z) (dl : DataLoader) :
  make_DataLoader views b = Ok dl -> dl_dataset dl = views.
Proof.
  unfold make_DataLoader. intros Hrun.
  destruct (negb (same_size0 views)); [discriminate |].
  destruct (b <=? 0); [discriminate |]. injection Hrun as <-. reflexivity.
Qed.

Lemma batches_first (dl : DataLoader) (batch : list array)
    (bs : list (list array)) :
  batches dl = Ok (batch :: bs) ->
  exists v, head (dl_dataset dl) = Some v /\ shape0 v <> O
            /\ length batch = length (dl_dataset dl).
Proof.
  unfold batches. destruct (dl_dataset dl) as [| v rest] eqn:Hds; [discriminate |].
  intros [= Hbs]. exists v. split; [reflexivity |].
  destruct (shape0 v) as [| n] eqn:Hn; [discriminate |]. cbn [batches_upto] in Hbs.
  rewrite Hn in Hbs. cbn in Hbs. injection Hbs as <- _.
  split; [discriminate |]. cbn. rewrite length_map. reflexivity.
Qed.

Lemma batches_no_rows (v : array) (rest : list array) (b : nat) :
  shape0 v = O -> batches (mk_DataLoader (v :: rest) b) = Ok [].
Proof. intros Hz. unfold batches. cbn. rewrite Hz. reflexivity. Qed.

(** A training epoch that returns ran over two arrays with at least
    one row. *)
Lemma train_epoch_Ok_dataset (m : Model) (dl : DataLoader) (r : Model * R) :
  train_epoch m dl = Ok r ->
  exists x y, dl_dataset dl = [x; y] /\ shape0 x <> O.
Proof.
  unfold train_epoch. intros Hrun. inv_bind Hrun. inv_bind Hrun.
  destruct a0 as [m' total]. inv_bind Hrun.
  destruct a as [| batch bs]; [discriminate |].
  destruct (batches_first _ _ _ Hstep) as (v & Hhead & Hrows & Hlen).
  cbn [for_each] in Hstep0. inv_bind Hstep0. inv_bind Hstep2.
  unfold unpack2 in Hstep0.
  destruct batch as [| bx [| by_ [| ? ?]]]; try discriminate.
  destruct (dl_dataset dl) as [| x [| y [| ? ?]]]; try discriminate.
  injection Hhead as <-. eauto.
Qed.

Lemma val_epoch_Ok_dataset (m : Model) (dl : DataLoader) (r : Model * R) :
  val_epoch m dl = Ok r ->
  exists x y, dl_dataset dl = [x; y] /\ shape0 x <> O.
Proof.
  unfold val_epoch. intros Hrun. inv_bind Hrun. inv_bind Hrun. inv_bind Hrun.
  destruct a as [| batch bs]; [discriminate |].
  destruct (batches_first _ _ _ Hstep) as (v & Hhead & Hrows & Hlen).
  cbn [for_each] in Hstep0. inv_bind Hstep0. inv_bind Hstep2.
  unfold unpack2 in Hstep0.
  destruct batch as [| bx [| by_ [| ? ?]]]; try discriminate.
  destruct (dl_dataset dl) as [| x [| y [| ? ?]]]; try discriminate.
  injection Hhead as <-. eauto.
Qed.

(** X11. An epoch over a loader whose arrays have no row raises
    [ZeroDivisionError], in training and in validation alike: the loss
    summed over no batch is divided by the number of batches. The
    model is not called. *)
Theorem epoch_over_no_rows_raises (m : Model) (v : array)
    (rest : list array) (b : nat) :
  shape0 v = O ->
  train_epoch m (mk_DataLoader (v :: rest) b) = Raise ZeroDivisionError
  /\ val_epoch m (mk_DataLoader (v :: rest) b) = Raise ZeroDivisionError.
Proof.
  intros Hz. unfold train_epoch, val_epoch.
  rewrite (batches_no_rows v rest b Hz). split; reflexivity.
Qed.

Lemma fit_train_loaders (shuffle : list nat -> list nat) (fuel : nat)
    (w w1 : Wrapper) (args : list array) (tdl vdl : DataLoader)
    (s0 s : TrainingState) :
  fit_train shuffle fuel w args = Ok (w1, tdl, vdl, s0, s) ->
  exists wp,
    process_training_data shuffle fuel w args = Ok wp
    /\ dataset_list_train wp = Some (dl_dataset tdl)
    /\ dataset_list_val wp = Some (dl_dataset vdl).
Proof.
  unfold fit_train. intros Hrun. do 8 inv_bind Hrun.
  injection Hrun as <- <- <- <- <-.
  exists a. split; [exact Hstep |].
  apply make_DataLoader_dataset in Hstep1, Hstep3.
  destruct (dataset_list_train a); [| discriminate].
  destruct (dataset_list_val a); [| discriminate].
  cbn in Hstep0, Hstep2. split; congruence.
Qed.

(** X12. A call of [fit] that runs at least one epoch and returns was
    given exactly two views and at least three samples: with another
    number of views a batch does not unpack into [(x, y)], and with
    fewer samples the validation subset is empty. *)
Theorem fit_needs_two_views_three_samples (shuffle : list nat -> list nat)
    (fuel : nat) (w wf : Wrapper) (args : list array) :
  (forall l, shuffle l ≡ₚ l) ->
  0 < epoch_num (cfg w) ->
  fit shuffle fuel w args = Ok wf ->
  exists X Y, args = [X; Y] /\ (3 <= shape0 X)%nat.
Proof.
  intros Hperm Hepochs Hfit.
  destruct (fit_Ok _ _ _ _ _ Hfit) as (w1 & tdl & vdl & s0 & s & Htrain & _).
  destruct (fit_train_Ok _ _ _ _ _ _ _ _ _ Htrain)
    as (_ & _ & _ & Hs0 & Hloop & _).
  destruct (fit_train_loaders _ _ _ _ _ _ _ _ _ Htrain)
    as (wp & Hproc & Htr & Hva).
  (* the first epoch ran to its end *)
  destruct (Z.to_nat (epoch_num (cfg w))) as [| n] eqn:Hn; [lia |].
  cbn [run_epochs] in Hloop. inv_bind Hloop.
  destruct (epoch_body_running _ _ _ _ _ Hs0 Hstep)
    as (m & tl & vl & Hplain & _).
  unfold plain_epoch in Hplain. inv_bind Hplain. destruct a0 as [mt tl'].
  inv_bind Hplain.
  destruct (train_epoch_Ok_dataset _ _ _ Hstep0) as (tx & ty & Htdl & _).
  destruct (val_epoch_Ok_dataset _ _ _ Hstep1) as (vx & vy & Hvdl & Hrows).
  (* the arrays behind the loaders *)
  apply process_training_data_Ok in Hproc
    as (first & rest & tr & va & means & b & -> & Hcenter & _ & ->).
  cbn in Htr, Hva. rewrite Htdl in Htr. rewrite Hvdl in Hva.
  injection Htr as ->. injection Hva as ->.
  apply center_views_Ok in Hcenter
    as (tr1 & va1 & me1 & Htr1 & Hva1 & _ & Hftr & Hfva & _).
  cbn in Htr1, Hva1. subst tr1 va1.
  inversion Hftr as [| ? ? ? ? _ Hftr']; subst.
  inversion Hftr' as [| Y ? ? ? _ Hftr'']; subst.
  inversion Hftr''; subst.
  exists first, Y. split; [reflexivity |].
  inversion Hfva as [| ? ? ? ? Hvx _]; subst.
  destruct (partition_lengths shuffle (shape0 first) Hperm) as (_ & Hl2).
  pose proof (split_point_nearest (shape0 first)).
  lia.
Qed.

End FitInput.

(** ** predict_corr and fit, further *)

Section Alignment.
Context {R Model Snapshot CCA : Type}.
Context `{Scalar R} `{ModelAdapter R Model Snapshot} `{Numerics R CCA}.

Local Abbreviation array := (ndarray R).
Local Abbreviation Wrapper := (Wrapper R Model CCA).

(** What a returning call of [predict_corr] went through. *)
Lemma predict_corr_Ok (w w' : Wrapper) (args : list array) (train : bool)
    (r : option (list R)) :
  predict_corr w args train = Ok (w', r) ->
  (latent_codes w = Ok Returned /\ w' = w /\ r = None)
  \/ (exists z_x z_y c v1 v2 cs,
        latent_codes w = Ok (Collected z_x z_y)
        /\ corrcoef_diag (latent_dims (cfg w)) v1 v2 = Ok cs
        /\ r = Some cs
        /\ ((train = true
             /\ cca_fit_transform (latent_dims (cfg w)) z_x z_y = Ok (c, (v1, v2))
             /\ w' = set_cca w c)
            \/ (train = false /\ cca w = Some c
                /\ cca_transform c z_x z_y = Ok (v1, v2) /\ w' = w))).
Proof.
  unfold predict_corr. intros Hrun. do 2 inv_bind Hrun.
  destruct a0 as [z_x z_y |]; [| injection Hrun as <- <-; auto].
  right. destruct train.
  - inv_bind Hrun. destruct a0 as [c [v1 v2]]. inv_bind Hrun.
    injection Hrun as <- <-. exists z_x, z_y, c, v1, v2, a0. auto 10.
  - inv_bind Hrun. inv_bind Hrun. destruct a1 as [v1 v2]. inv_bind Hrun.
    injection Hrun as <- <-. exists z_x, z_y, a0, v1, v2, a1.
    destruct (cca w); [| discriminate]. injection Hstep1 as ->. auto 10.
Qed.

(** X13. A call of [predict_corr] that returns has changed nothing in
    the wrapper except, in fit mode, [self.cca]: with [train=False]
    the wrapper is left exactly as it was, so the alignment is never
    refitted, and a call that returns [None] changed nothing in either
    mode. *)
Theorem predict_corr_assigns_only_cca (w w' : Wrapper) (args : list array)
    (train : bool) (r : option (list R)) :
  predict_corr w args train = Ok (w', r) ->
  (train = false -> w' = w)
  /\ (r = None -> w' = w)
  /\ cfg w' = cfg w /\ batch_size w' = batch_size w
  /\ dataset_list_train w' = dataset_list_train w
  /\ dataset_list_val w' = dataset_list_val w
  /\ dataset_means w' = dataset_means w
  /\ model w' = model w
  /\ train_correlations w' = train_correlations w
  /\ X_mean w' = X_mean w /\ Y_mean w' = Y_mean w.
Proof.
  intros Hrun. apply predict_corr_Ok in Hrun
    as [(_ & -> & ->) | (z_x & z_y & c & v1 & v2 & cs & _ & _ & -> & Hmode)].
  - split_and!; auto.
  - destruct Hmode as [(-> & _ & ->) | (-> & _ & _ & ->)];
      split_and!; auto; discriminate.
Qed.

(** X14. After a [fit] with method DCCAE the wrapper holds an alignment
    and the training correlations, and [predict_corr] with
    [train=False] applies that alignment to the very latent codes it
    was fitted on, whatever views are supplied. Where applying the
    alignment to those codes gives the projections the fit gave, the
    call returns the training correlations again. *)
Theorem fit_then_apply_alignment (shuffle : list nat -> list nat) (fuel : nat)
    (w wf : Wrapper) (args : list array) :
  fit shuffle fuel w args = Ok wf ->
  method (cfg w) = "DCCAE" ->
  exists c z_x z_y v1 v2 cs,
    cca wf = Some c
    /\ train_correlations wf = Some (Some cs)
    /\ latent_codes wf = Ok (Collected z_x z_y)
    /\ cca_fit_transform (latent_dims (cfg w)) z_x z_y = Ok (c, (v1, v2))
    /\ corrcoef_diag (latent_dims (cfg w)) v1 v2 = Ok cs
    /\ (forall args' c',
          center_args wf args' = Ok c' ->
          predict_corr wf args' false
          = (let* '(u1, u2) := cca_transform c z_x z_y in
             let* cs' := corrcoef_diag (latent_dims (cfg w)) u1 u2 in
             Ok (wf, Some cs'))
          /\ (cca_transform c z_x z_y = Ok (v1, v2) ->
              predict_corr wf args' false = Ok (wf, Some cs))).
Proof.
  intros Hfit Hmethod. unfold fit in Hfit. inv_bind Hfit.
  destruct a as [[[[w1 tdl] vdl] s0] s].
  destruct (fit_train_Ok _ _ _ _ _ _ _ _ _ Hstep) as ((Hcfg & _) & _).
  rewrite Hcfg, Hmethod in Hfit. cbn in Hfit.
  inv_bind Hfit. destruct a as [w2 r]. injection Hfit as <-.
  apply predict_corr_Ok in Hstep0
    as [(Hret & _) | (z_x & z_y & c & v1 & v2 & cs & Hz & Hcorr & -> & Hmode)].
  { apply latent_codes_Returned in Hret as (Hm & _). congruence. }
  destruct Hmode as [(_ & Hfit_cca & ->) | (Hmode & _)]; [| discriminate].
  rewrite Hcfg in Hfit_cca, Hcorr.
  exists c, z_x, z_y, v1, v2, cs.
  assert (Hlat : latent_codes (set_train_correlations (set_cca w1 c) (Some cs))
                 = Ok (Collected z_x z_y)) by exact Hz.
  split_and!; try reflexivity; try assumption.
  intros args' c' Hc'.
  assert (Heq : predict_corr (set_train_correlations (set_cca w1 c) (Some cs))
                  args' false
                = (let* '(u1, u2) := cca_transform c z_x z_y in
                   let* cs' := corrcoef_diag (latent_dims (cfg w)) u1 u2 in
                   Ok (set_train_correlations (set_cca w1 c) (Some cs),
                       Some cs'))).
  { unfold predict_corr. rewrite Hc', Hlat. cbn. rewrite Hcfg.
    destruct (cca_transform c z_x z_y) as [[u1 u2] | e |]; reflexivity. }
  split; [exact Heq |].
  intros Hagain. rewrite Heq, Hagain. cbn. rewrite Hcorr. reflexivity.
Qed.

Lemma same_size0_uniform (views : list array) (n : nat) :
  Forall (fun T => shape0 T = n) views -> same_size0 views = true.
Proof.
  intros Hall. unfold same_size0. destruct views as [| v views]; [reflexivity |].
  inversion Hall as [| ? ? Hv _]; subst.
  apply forallb_forall. intros u Hu.
  apply Nat.eqb_eq. rewrite Forall_forall in Hall.
  symmetry. apply Hall. apply list_elem_of_In. exact Hu.
Qed.

Lemma Forall2_right_only {A B} (P : B -> Prop) (l : list A) (k : list B) :
  Forall2 (fun _ y => P y) l k -> Forall P k.
Proof. induction 1; constructor; auto. Qed.

(** X15. On a wrapper that holds no model, a [method] other than
    DCCAE, DVCCA and DGCCA makes [fit] raise [AttributeError] for
    [model] once the data are processed: no branch builds a model, and
    the method is not checked anywhere. *)
Theorem fit_unknown_method_raises (shuffle : list nat -> list nat) (fuel : nat)
    (w wp : Wrapper) (args : list array) :
  method (cfg w) <> "DCCAE" -> method (cfg w) <> "DVCCA" ->
  method (cfg w) <> "DGCCA" ->
  model w = None ->
  1 <= batch_size w ->
  process_training_data shuffle fuel w args = Ok wp ->
  fit shuffle fuel w args = Raise (AttributeError "model").
Proof.
  intros Hm1 Hm2 Hm3 Hmodel Hb Hproc.
  unfold fit, fit_train. rewrite Hproc. cbn [Py.bind].
  pose proof (process_training_data_frame _ _ _ _ _ Hproc)
    as (Hcfg & Hmodel' & _).
  apply process_training_data_Ok in Hproc
    as (first & rest & tr & va & means & b & -> & Hcenter & Hloop & ->).
  apply center_views_Ok in Hcenter
    as (tr1 & va1 & me1 & -> & -> & -> & Htr & Hva & _).
  apply adjust_batch_size_sound in Hloop as (Hle & _).
  cbn [dataset_list_train dataset_list_val set_training_data getattr Py.bind
       batch_size app].
  unfold make_DataLoader.
  rewrite (same_size0_uniform tr1 _ (Forall2_right_only _ _ _ Htr)).
  rewrite (same_size0_uniform va1 _ (Forall2_right_only _ _ _ Hva)).
  destruct (Z.leb_spec b 0); [lia |]. cbn [negb Py.bind].
  unfold build_model. cbn [cfg set_training_data].
  apply String.eqb_neq in Hm1, Hm2, Hm3. rewrite Hm1, Hm2, Hm3.
  cbn. rewrite Hmodel. reflexivity.
Qed.

End Alignment.

(** ** The caller's arrays, further *)

Section InPlaceFurther.
Context {R Model Snapshot CCA : Type}.
Context `{Scalar R} `{ModelAdapter R Model Snapshot} `{Numerics R CCA}.

Local Abbreviation array := (ndarray R).
Local Abbreviation Wrapper := (Wrapper R Model CCA).

Lemma encode_views_none (w : Wrapper) :
  encode_views w None None = Ok (None, None).
Proof.
  unfold encode_views.
  destruct (String.eqb (method (cfg w)) "DCCAE"); [reflexivity |].
  destruct (String.eqb (method (cfg w)) "DVCCA"); reflexivity.
Qed.

(** X16. With no view supplied [transform_view] falls off its end: it
    returns [None], not a pair, and touches nothing; [predict_view]
    then fails to unpack that [None] and raises [TypeError]. *)
Theorem no_view_supplied (w : Wrapper) (st : gmap nat array) :
  transform_view w None None st = (st, Ok None)
  /\ predict_view w None None st = (st, Raise TypeError).
Proof.
  assert (Ht : transform_view w None None st = (st, Ok None)).
  { unfold transform_view, when_supplied, st_ret, st_bind, st_lift.
    rewrite encode_views_none. reflexivity. }
  split; [exact Ht |].
  unfold predict_view, st_bind. rewrite Ht. reflexivity.
Qed.

Lemma transform_view_both (w : Wrapper) (X_new Y_new : nat)
    (st : gmap nat array) (r : option (option array * option array)) :
  (transform_view w (Some X_new) (Some Y_new) st).2 = Ok r ->
  exists u v, r = Some (Some u, Some v).
Proof.
  unfold transform_view, when_supplied, st_ret, st_bind, st_lift.
  destruct (isub_attr "X_mean" (X_mean w) X_new st) as [st1 [u | e |]];
    cbn [snd]; try discriminate.
  destruct (isub_attr "Y_mean" (Y_mean w) Y_new st1) as [st2 [v | e |]];
    cbn [snd]; try discriminate.
  destruct (st_read X_new st2) as [st3 [tx | e |]]; cbn [snd];
    try discriminate.
  destruct (st_read Y_new st3) as [st4 [ty | e |]]; cbn [snd];
    try discriminate.
  destruct (encode_views w (Some tx) (Some ty)) as [[U V] | e |];
    cbn [snd Py.bind]; try discriminate.
  destruct U as [u' |]; cbn [bound Py.bind]; [| discriminate].
  destruct V as [v' |]; cbn [bound Py.bind]; [| discriminate].
  intros [= <-]. eauto.
Qed.

(** X17. With both views supplied, a call of [predict_view] that
    returns gives a newly decoded array for view A and, for view B,
    the caller's own array object: the reconstruction of B decoded
    from A is computed and then overwritten. *)
Theorem predict_view_both_views (w : Wrapper) (X_new Y_new : nat)
    (st : gmap nat array) (xp yp : view_value) :
  (predict_view w (Some X_new) (Some Y_new) st).2 = Ok (xp, yp) ->
  yp = CallerArray Y_new /\ exists a, xp = NewArray a.
Proof.
  unfold predict_view, st_bind, st_lift.
  pose proof (transform_view_both w X_new Y_new st) as Hshape.
  destruct (transform_view w (Some X_new) (Some Y_new) st) as [st1 [r | e |]];
    cbn in *; try discriminate.
  destruct (Hshape r eq_refl) as (u & v & ->). cbn.
  assert (Hdec : forall X_pred Y_pred,
             decode_views w (Some X_new) (Some Y_new) (Some u) (Some v)
             = Ok (X_pred, Y_pred) ->
             Y_pred = Some (CallerArray Y_new)
             /\ exists a, X_pred = Some (NewArray a)).
  { unfold decode_views. intros X_pred Y_pred Hrun.
    inv_bind Hrun. destruct a as [Xp Yp]. do 2 inv_bind Hrun.
    injection Hrun as <- <-. eauto. }
  intros Hrun. inv_bind Hrun. destruct a as [X_pred Y_pred].
  assert (Hpair : Y_pred = Some (CallerArray Y_new)
                  /\ exists a, X_pred = Some (NewArray a)).
  { destruct (String.eqb (method (cfg w)) "DCCAE"); [eapply Hdec; eauto |].
    destruct (String.eqb (method (cfg w)) "DVCCA"); [eapply Hdec; eauto |].
    injection Hstep as <- <-. discriminate. }
  destruct Hpair as (-> & a & ->). cbn in Hrun. injection Hrun as <- <-. eauto.
Qed.

(** X18. With a [method] other than DCCAE and DVCCA, [transform_view]
    with view A never returns. Where [X_mean] is not set, as after
    [fit], it raises [AttributeError] and leaves the caller's array as
    it was. Where a caller has set [X_mean], of the array's width, it
    raises [UnboundLocalError] for [U_new], and it does so after it
    has overwritten the caller's array with its rows minus [X_mean]. *)
Theorem transform_view_unknown_method (w : Wrapper) (st : gmap nat array)
    (x : nat) :
  method (cfg w) <> "DCCAE" -> method (cfg w) <> "DVCCA" ->
  (X_mean w = None ->
   transform_view w (Some x) None st = (st, Raise (AttributeError "X_mean")))
  /\ (forall X mx,
        X_mean w = Some mx -> st !! x = Some X -> length mx = ncols X ->
        transform_view w (Some x) None st
        = (<[x := mk_ndarray (ncols X)
                     (map (fun r => zip_with s_sub r mx) (rows X))]> st,
           Raise (UnboundLocalError "U_new"))).
Proof.
  intros Hm1 Hm2. split.
  - intros HX.
    unfold transform_view, when_supplied, isub_attr, st_bind, st_lift.
    rewrite HX. reflexivity.
  - intros X mx HX Hx Hmx. unfold transform_view. rewrite HX.
    unfold st_bind at 1.
    rewrite (when_supplied_isub_writes _ _ _ _ _ Hx Hmx).
    unfold when_supplied, st_ret, st_bind, st_read, st_lift.
    rewrite lookup_insert_eq.
    unfold encode_views. apply String.eqb_neq in Hm1, Hm2. rewrite Hm1, Hm2.
    reflexivity.
Qed.

(** X19. When [X_mean] is set and [Y_mean] is not, [transform_view] with
    both views and [recon_loss] raise [AttributeError] for [Y_mean]
    with view A already overwritten: the caller is left with one array
    centred and the other not. *)
Theorem missing_Y_mean_centres_X_only (w : Wrapper) (st : gmap nat array)
    (x y : nat) (X : array) (mx : list R) :
  X_mean w = Some mx -> Y_mean w = None ->
  st !! x = Some X -> length mx = ncols X ->
  transform_view w (Some x) (Some y) st
  = (<[x := sub_rows X mx]> st, Raise (AttributeError "Y_mean"))
  /\ recon_loss w x y st
     = (<[x := sub_rows X mx]> st, Raise (AttributeError "Y_mean")).
Proof.
  intros HX HY Hx Hmx. split.
  - unfold transform_view. rewrite HX, HY. unfold st_bind at 1.
    rewrite (when_supplied_isub_writes _ _ _ _ _ Hx Hmx). reflexivity.
  - unfold recon_loss. rewrite HX, HY. unfold st_bind at 1.
    rewrite (isub_attr_writes _ _ _ _ _ Hx Hmx). reflexivity.
Qed.

(** X20. After [fit] on a newly constructed wrapper, every call that
    is handed an array raises [AttributeError] on its first statement,
    for [X_mean] or for [Y_mean], and leaves the caller's arrays as
    they were: [recon_loss], [predict_view], and [transform_view] with
    view B. *)
Theorem array_calls_after_fit_raise (shuffle : list nat -> list nat)
    (fuel : nat) (c : Config R) (b : Z) (wf : Wrapper) (args : list array)
    (x y : nat) (Y_new : option nat) (st : gmap nat array) :
  fit shuffle fuel (init c b) args = Ok wf ->
  recon_loss wf x y st = (st, Raise (AttributeError "X_mean"))
  /\ predict_view wf (Some x) Y_new st = (st, Raise (AttributeError "X_mean"))
  /\ transform_view wf None (Some y) st = (st, Raise (AttributeError "Y_mean"))
  /\ predict_view wf None (Some y) st = (st, Raise (AttributeError "Y_mean")).
Proof.
  intros Hfit.
  destruct (fit_Ok _ _ _ _ _ Hfit)
    as (w1 & tdl & vdl & s0 & s & _ & (_ & HX & HY) & _).
  cbn in HX, HY.
  assert (Htx : transform_view wf (Some x) Y_new st
                = (st, Raise (AttributeError "X_mean"))).
  { unfold transform_view, when_supplied, isub_attr, st_bind, st_lift.
    rewrite HX. reflexivity. }
  assert (Hty : transform_view wf None (Some y) st
                = (st, Raise (AttributeError "Y_mean"))).
  { unfold transform_view, when_supplied, isub_attr, st_bind, st_lift, st_ret.
    rewrite HY. reflexivity. }
  split_and!.
  - unfold recon_loss, isub_attr, st_bind, st_lift. rewrite HX. reflexivity.
  - unfold predict_view, st_bind. rewrite Htx. reflexivity.
  - exact Hty.
  - unfold predict_view, st_bind. rewrite Hty. reflexivity.
Qed.

End InPlaceFurther.

(** ** The further properties at concrete inputs *)

Section ConcreteFurther.
Import Ref.

Lemma view5_rectangular : rectangular view5.
Proof. repeat constructor. Qed.

Lemma in_order_perm (l : list nat) : in_order l ≡ₚ l.
Proof. reflexivity. Qed.

Lemma rev_perm (l : list nat) : rev l ≡ₚ l.
Proof. symmetry. apply Permutation_rev. Qed.

Lemma process_training_data_succeeds_view5 :
  exists w',
    forall fuel,
      (Z.to_nat (Z.of_nat (shape0 view5) + 1
                 - batch_size (fresh 1 6 "DCCAE" 2 true)) < fuel)%nat ->
      process_training_data in_order fuel (fresh 1 6 "DCCAE" 2 true)
        [view5; view5] = Ok w'.
Proof.
  apply (process_training_data_succeeds in_order (fresh 1 6 "DCCAE" 2 true)
           view5 [view5]).
  - exact in_order_perm.
  - repeat constructor.
  - repeat constructor.
  - vm_compute; discriminate.
  - vm_compute; discriminate.
Defined.

Lemma training_data_shapes_view5 :
  exists w' tr va means,
    process_training_data (@rev nat) 10 (fresh 1 6 "DCCAE" 2 true)
      [view5; view5] = Ok w'
    /\ dataset_list_train w' = Some tr
    /\ dataset_list_val w' = Some va
    /\ dataset_means w' = Some means
    /\ Forall2 (fun X T => shape0 T = split_point (shape0 view5))
         [view5; view5] tr
    /\ Forall2 (fun X V =>
                  shape0 V = (shape0 view5 - split_point (shape0 view5))%nat)
         [view5; view5] va
    /\ Forall2 (fun X m =>
                  exists sel,
                    take_rows X (partition (@rev nat) (shape0 view5)).1 = Ok sel
                    /\ m = mean_axis0 sel)
         [view5; view5] means.
Proof.
  eexists.
  destruct (training_data_shapes (@rev nat) 10 (fresh 1 6 "DCCAE" 2 true)
              _ view5 [view5] rev_perm ltac:(vm_compute; reflexivity))
    as (tr & va & means & H).
  exists tr, va, means. split; [vm_compute; reflexivity | exact H].
Defined.

Lemma short_view_raises_on_three_rows :
  process_training_data in_order 10 (fresh 1 6 "DCCAE" 2 true)
    [view5; column [1; 2; 3]] = Raise IndexError.
Proof.
  apply (short_view_raises_IndexError in_order 10 (fresh 1 6 "DCCAE" 2 true)
           view5 (column [1; 2; 3]) [] []).
  - exact in_order_perm.
  - repeat constructor.
  - constructor.
  - repeat constructor.
  - vm_compute; lia.
Defined.

Lemma validation_subset_of_two_rows :
  ((partition (@rev nat) 2).2 = [] <-> (2 <= 2)%nat)
  /\ ((partition (@rev nat) 2).1 = [] <-> 2%nat = O).
Proof. apply (validation_subset_empty_iff (@rev nat) 2). exact rev_perm. Defined.

Lemma batch_size_minus_two_raises :
  adjust_batch_size 5 5 (-2) 1 = Raise ZeroDivisionError.
Proof.
  apply (nonpositive_batch_size_raises 5 5 (-2) 1); [lia | lia | simpl; lia].
Defined.

Lemma batch_size_loop_returns_iff_five :
  ((exists fuel b', adjust_batch_size fuel 5 1 7 = Ok b') <-> 7 <= 5)
  /\ (5 < 7 -> forall fuel, adjust_batch_size fuel 5 1 7 = OutOfFuel).
Proof. apply (batch_size_loop_returns_iff 5 1 7); lia. Defined.

Lemma batch_size_adjusted_once_view5 :
  exists w1 w2,
    process_training_data in_order 10 (fresh 1 6 "DCCAE" 2 true)
      [view5; view5] = Ok w1
    /\ process_training_data (@rev nat) 10 w1 [view5; view5] = Ok w2
    /\ batch_size w2 = batch_size w1.
Proof.
  eexists _, _. split; [vm_compute; reflexivity |].
  split; [vm_compute; reflexivity |].
  apply (batch_size_adjusted_once in_order (@rev nat) 10 10
           (fresh 1 6 "DCCAE" 2 true) _ _ view5 view5 [view5] [view5]);
    vm_compute; reflexivity.
Defined.

Lemma patience_counter_after_six_turns :
  exists s',
    run_epochs 2 train_loader val_loader 6 start = Ok s'
    /\ 0 <= epochs_no_improve s'
    /\ (early_stop s' = true -> epochs_no_improve s' = 2 /\ 0 < 2)
    /\ (2 <= 0 -> early_stop s' = false)
    /\ (epochs_no_improve start < 2 -> early_stop s' = false ->
        epochs_no_improve s' < 2).
Proof.
  eexists. split; [vm_compute; reflexivity |].
  apply (patience_counter_invariant 2 train_loader val_loader 6 start);
    [vm_compute; reflexivity | reflexivity | vm_compute; discriminate].
Defined.

Lemma loss_histories_after_six_turns :
  exists s' tls vls,
    run_epochs 2 train_loader val_loader 6 start = Ok s'
    /\ all_train_loss s' = all_train_loss start ++ tls
    /\ all_val_loss s' = all_val_loss start ++ vls
    /\ length tls = length vls /\ (length tls <= 6)%nat.
Proof.
  exists after_six.
  destruct (loss_histories_grow_together 2 train_loader val_loader 6 start
              after_six) as (tls & vls & H); [vm_compute; reflexivity |].
  exists tls, vls. split; [vm_compute; reflexivity | exact H].
Defined.

(** With no latent dimension the best loss starts at 0, which the loss
    of the reference network never goes below. *)
Lemma sentinel_zero_restores_untrained :
  exists s,
    run_epochs (patience (cfg (fresh 0 6 "DCCAE" 2 true)))
      train_loader val_loader 6
      (initial_state (fresh 0 6 "DCCAE" 2 true) (mk_net 0 false)) = Ok s
    /\ early_stop s = true
    /\ ts_model s
       = load_state_dict (mk_net 4 false) (state_dict (mk_net 0 false))
    /\ length (all_train_loss s)
       = Z.to_nat (patience (cfg (fresh 0 6 "DCCAE" 2 true))).
Proof.
  apply (never_below_sentinel_restores_untrained (fresh 0 6 "DCCAE" 2 true)
           (mk_net 0 false) (mk_net 4 false) train_loader val_loader 6).
  - vm_compute; reflexivity.
  - change (Z.to_nat (patience (cfg (fresh 0 6 "DCCAE" 2 true)))) with 2%nat.
    apply (non_improving_S _ _ _ 1 _ (mk_net 2 false) _ 1%Q 0%Q);
      [vm_compute; reflexivity | reflexivity |].
    apply (non_improving_S _ _ _ 0 _ (mk_net 4 false) _ 1%Q (1 # 25)%Q);
      [vm_compute; reflexivity | reflexivity |].
    apply non_improving_O.
  - vm_compute; lia.
Defined.

Lemma epoch_over_empty_validation_raises :
  train_epoch (mk_net 0 false)
    (mk_DataLoader [mk_ndarray 1 []; mk_ndarray 1 []] 2)
  = Raise ZeroDivisionError
  /\ val_epoch (mk_net 0 false)
       (mk_DataLoader [mk_ndarray 1 []; mk_ndarray 1 []] 2)
     = Raise ZeroDivisionError.
Proof.
  apply (epoch_over_no_rows_raises (mk_net 0 false) (mk_ndarray 1 [])
           [mk_ndarray 1 []] 2).
  reflexivity.
Defined.

Lemma fit_on_view5_had_two_views :
  exists X Y, [view5; view5] = [X; Y] /\ (3 <= shape0 X)%nat.
Proof.
  apply (fit_needs_two_views_three_samples in_order 10
           (fresh 1 6 "DCCAE" 2 true) (fitted (fresh 1 6 "DCCAE" 2 true))
           [view5; view5]).
  - exact in_order_perm.
  - vm_compute; reflexivity.
  - vm_compute; reflexivity.
Defined.

Lemma predict_corr_leaves_fitted_wrapper :
  exists w' r,
    predict_corr (fitted (fresh 1 6 "DCCAE" 2 true)) [view5; view5] false
    = Ok (w', r)
    /\ (false = false -> w' = fitted (fresh 1 6 "DCCAE" 2 true))
    /\ cca w' = cca (fitted (fresh 1 6 "DCCAE" 2 true)).
Proof.
  assert (Hrun : exists r,
             predict_corr (fitted (fresh 1 6 "DCCAE" 2 true)) [view5; view5]
               false
             = Ok (fitted (fresh 1 6 "DCCAE" 2 true), r))
    by (eexists; vm_compute; reflexivity).
  destruct Hrun as (r & Hrun).
  exists (fitted (fresh 1 6 "DCCAE" 2 true)), r. split; [exact Hrun |].
  destruct (predict_corr_assigns_only_cca _ _ _ _ _ Hrun) as (Hsame & _).
  split; [exact Hsame | reflexivity].
Defined.

Lemma fit_then_apply_on_view5 :
  exists c z_x z_y v1 v2 cs,
    cca (fitted (fresh 1 6 "DCCAE" 2 true)) = Some c
    /\ train_correlations (fitted (fresh 1 6 "DCCAE" 2 true)) = Some (Some cs)
    /\ latent_codes (fitted (fresh 1 6 "DCCAE" 2 true))
       = Ok (Collected z_x z_y)
    /\ cca_fit_transform (latent_dims (cfg (fresh 1 6 "DCCAE" 2 true))) z_x z_y
       = Ok (c, (v1, v2))
    /\ corrcoef_diag (latent_dims (cfg (fresh 1 6 "DCCAE" 2 true))) v1 v2
       = Ok cs
    /\ (forall args' c',
          center_args (fitted (fresh 1 6 "DCCAE" 2 true)) args' = Ok c' ->
          predict_corr (fitted (fresh 1 6 "DCCAE" 2 true)) args' false
          = (let* '(u1, u2) := cca_transform c z_x z_y in
             let* cs' :=
               corrcoef_diag (latent_dims (cfg (fresh 1 6 "DCCAE" 2 true)))
                 u1 u2 in
             Ok (fitted (fresh 1 6 "DCCAE" 2 true), Some cs'))
          /\ (cca_transform c z_x z_y = Ok (v1, v2) ->
              predict_corr (fitted (fresh 1 6 "DCCAE" 2 true)) args' false
              = Ok (fitted (fresh 1 6 "DCCAE" 2 true), Some cs))).
Proof.
  apply (fit_then_apply_alignment in_order 10 (fresh 1 6 "DCCAE" 2 true)
           (fitted (fresh 1 6 "DCCAE" 2 true)) [view5; view5]).
  - vm_compute; reflexivity.
  - reflexivity.
Defined.

Lemma fit_with_method_PCA_raises :
  fit in_order 10 (fresh 1 6 "PCA" 2 true) [view5; view5]
  = Raise (AttributeError "model").
Proof.
  apply (fit_unknown_method_raises in_order 10 (fresh 1 6 "PCA" 2 true)
           (match process_training_data in_order 10 (fresh 1 6 "PCA" 2 true)
                    [view5; view5] with
            | Ok w' => w'
            | _ => fresh 1 6 "PCA" 2 true
            end) [view5; view5]);
    try (vm_compute; discriminate); vm_compute; reflexivity.
Defined.

Lemma predict_view_both_on_two_arrays :
  exists xp yp,
    (predict_view (with_means (fitted (fresh 1 6 "DCCAE" 2 true)) [2%Q] [3%Q])
       (Some 0%nat) (Some 1%nat) two_arrays).2 = Ok (xp, yp)
    /\ yp = CallerArray 1 /\ exists a, xp = NewArray a.
Proof.
  eexists _, _. split; [vm_compute; reflexivity |].
  apply (predict_view_both_views
           (with_means (fitted (fresh 1 6 "DCCAE" 2 true)) [2%Q] [3%Q])
           0%nat 1%nat two_arrays).
  vm_compute; reflexivity.
Defined.

Lemma transform_view_with_method_PCA :
  transform_view (fresh 1 6 "PCA" 2 true) (Some 0%nat) None two_arrays
  = (two_arrays, Raise (AttributeError "X_mean"))
  /\ transform_view (with_means (fresh 1 6 "PCA" 2 true) [2%Q] [3%Q])
       (Some 0%nat) None two_arrays
     = (<[0%nat := column [-2; -2; -2; -2; 8]]> two_arrays,
        Raise (UnboundLocalError "U_new")).
Proof.
  split.
  - apply (transform_view_unknown_method (fresh 1 6 "PCA" 2 true)
             two_arrays 0%nat);
      [discriminate | discriminate | reflexivity].
  - destruct (transform_view_unknown_method
                (with_means (fresh 1 6 "PCA" 2 true) [2%Q] [3%Q])
                two_arrays 0%nat) as [_ Hset];
      [discriminate | discriminate |].
    apply (Hset view5 [2%Q]); [reflexivity | reflexivity | reflexivity].
Defined.

Lemma missing_Y_mean_on_two_arrays :
  transform_view (with_X_mean (fitted (fresh 1 6 "DCCAE" 2 true)) [2%Q])
    (Some 0%nat) (Some 1%nat) two_arrays
  = (<[0%nat := sub_rows view5 [2%Q]]> two_arrays,
     Raise (AttributeError "Y_mean"))
  /\ recon_loss (with_X_mean (fitted (fresh 1 6 "DCCAE" 2 true)) [2%Q])
       0%nat 1%nat two_arrays
     = (<[0%nat := sub_rows view5 [2%Q]]> two_arrays,
        Raise (AttributeError "Y_mean")).
Proof.
  apply (missing_Y_mean_centres_X_only
           (with_X_mean (fitted (fresh 1 6 "DCCAE" 2 true)) [2%Q])
           two_arrays 0%nat 1%nat view5 [2%Q]);
    try reflexivity; vm_compute; reflexivity.
Defined.

Lemma array_calls_on_fitted_raise :
  recon_loss (fitted (fresh 1 6 "DCCAE" 2 true)) 0%nat 1%nat two_arrays
  = (two_arrays, Raise (AttributeError "X_mean"))
  /\ predict_view (fitted (fresh 1 6 "DCCAE" 2 true)) (Some 0%nat) None
       two_arrays
     = (two_arrays, Raise (AttributeError "X_mean"))
  /\ transform_view (fitted (fresh 1 6 "DCCAE" 2 true)) None (Some 1%nat)
       two_arrays
     = (two_arrays, Raise (AttributeError "Y_mean"))
  /\ predict_view (fitted (fresh 1 6 "DCCAE" 2 true)) None (Some 1%nat)
       two_arrays
     = (two_arrays, Raise (AttributeError "Y_mean")).
Proof.
  apply (array_calls_after_fit_raise in_order 10 (config 1 6 "DCCAE" 2 true) 1
           (fitted (fresh 1 6 "DCCAE" 2 true)) [view5; view5]).
  vm_compute; reflexivity.
Defined.

End ConcreteFurther.
